(** * QR-Seat relay: message queue, activity gate and viewer registry

  A shallow embedding of the four HTTP route handlers of the relay
  ([send], [next], [status], [viewers]) and of the earlier revisions of
  [send] and [next], together with the properties of the session queue
  they maintain.

  The handlers are written in TypeScript over untyped JSON: request
  bodies and the files under [.qrseat-data] are whatever [JSON.parse]
  returns.  The embedding therefore works on JSON values, with the
  JavaScript coercions the handlers apply to them ([Number], [String],
  truthiness, [typeof], [??], [===]).

  Conventions.
  - A handler is a function from the directory contents (and its input) to
    a response and the new directory contents.
  - Every [Date.now()] of a handler is a field of a clock record handed
    to it, so the readings of one invocation may differ.  The default
    timestamps of the messages of one file share one reading.  A file
    carries the time of its last write, which is what the sweep looks at.
  - The send route starts [cleanupOldFiles()] without awaiting it.  The
    directory returned by an accepted send is the one left once that sweep
    has run.
  - Finite numbers are rationals: sums and comparisons are exact, which
    is what IEEE doubles give on the integers the service produces
    (clock readings, version counters, rounded TTLs).  [NaN] is kept,
    because the coercions produce it; numerals that overflow a double
    are outside the model.
  - File names are taken relative to the data directory, as built by the
    template strings of the source ([path.join] normalisation is not
    modelled).  Writes always succeed. *)

From Stdlib Require Import ZArith QArith Qround Lqa Lia DecimalString Ascii.
From stdpp Require Import gmap strings list fin_maps sorting.

Local Open Scope Z_scope.

(** ** JavaScript values *)

Module JS.

(** A JavaScript number: [NaN] or a finite value. *)
Inductive number :=
| NaN
| Fin (q : Q).

Definition num_of_Z (z : Z) : number := Fin (inject_Z z).

(** [a + b], [a - b], [a > b], [a < b] and [a === b] on numbers.  Every
    comparison with [NaN] is false. *)
Definition num_add (a b : number) : number :=
  match a, b with
  | Fin x, Fin y => Fin (x + y)
  | _, _ => NaN
  end.

Definition num_sub (a b : number) : number :=
  match a, b with
  | Fin x, Fin y => Fin (x - y)
  | _, _ => NaN
  end.

Definition num_gt (a b : number) : bool :=
  match a, b with
  | Fin x, Fin y => negb (Qle_bool x y)
  | _, _ => false
  end.

Definition num_lt (a b : number) : bool := num_gt b a.

Definition num_eq (a b : number) : bool :=
  match a, b with
  | Fin x, Fin y => Qeq_bool x y
  | _, _ => false
  end.

(** [Number.isFinite]. *)
Definition isFinite (a : number) : bool :=
  match a with
  | Fin _ => true
  | NaN => false
  end.

(** The result of [JSON.parse]. *)
#[local] Unset Elimination Schemes.
Inductive json :=
| JNull
| JBool (b : bool)
| JNum (q : Q)
| JStr (s : string)
| JArr (items : list json)
| JObj (fields : list (string * json)).
#[local] Set Elimination Schemes.

(** A JavaScript value as the handlers see it: [None] is [undefined]. *)
Definition jsval := option json.

Fixpoint assoc (k : string) (kvs : list (string * json)) : jsval :=
  match kvs with
  | [] => None
  | (k', v) :: rest => if String.eqb k k' then Some v else assoc k rest
  end.

(** Property access [v.k], for the property names the handlers use (none
    of which is defined on strings, arrays, numbers or booleans).  The
    outer [None] is the [TypeError] raised on [null]. *)
Definition member (v : json) (k : string) : option jsval :=
  match v with
  | JNull => None
  | JObj kvs => Some (assoc k kvs)
  | _ => Some None
  end.

(** Truthiness, as tested by [!v] and [if (v)]. *)
Definition truthy (v : json) : bool :=
  match v with
  | JNull => false
  | JBool b => b
  | JNum q => negb (Qeq_bool q 0)
  | JStr s => negb (String.eqb s "")
  | JArr _ | JObj _ => true
  end.

Definition truthy_val (v : jsval) : bool :=
  match v with
  | None => false
  | Some x => truthy x
  end.

(** [v ?? d]. *)
Definition nullish (v : jsval) (d : json) : json :=
  match v with
  | None | Some JNull => d
  | Some x => x
  end.

(** [typeof v === 'number' ? v : undefined]. *)
Definition if_number (v : jsval) : option number :=
  match v with
  | Some (JNum q) => Some (Fin q)
  | _ => None
  end.

(** [a === b] between a value read from a file and one read from a
    request: primitives compare by value, distinct objects are never
    identical. *)
Definition strict_eq (a b : json) : bool :=
  match a, b with
  | JNull, JNull => true
  | JBool x, JBool y => Bool.eqb x y
  | JNum x, JNum y => Qeq_bool x y
  | JStr x, JStr y => String.eqb x y
  | _, _ => false
  end.

(** What [JSON.stringify] writes for a number. *)
Definition json_of_number (a : number) : json :=
  match a with
  | NaN => JNull
  | Fin q => JNum q
  end.

(** The parts of the ECMAScript conversions that depend on the text of a
    string or on the printing of a number are left to the host. *)
Class Builtins := {
  StringToNumber : string -> number;
  NumberToString : Q -> string;
  ObjectToString : json -> string;
  parseIntString : string -> number;
}.

Section Coercions.
Context {host : Builtins}.

(** [Number(v)]. *)
Definition Number_ (v : jsval) : number :=
  match v with
  | None => NaN
  | Some JNull => num_of_Z 0
  | Some (JBool b) => num_of_Z (if b then 1 else 0)
  | Some (JNum q) => Fin q
  | Some (JStr s) => StringToNumber s
  | Some (JArr _ as o) | Some (JObj _ as o) => StringToNumber (ObjectToString o)
  end.

(** [String(v)] and template interpolation. *)
Definition String_ (v : json) : string :=
  match v with
  | JNull => "null"
  | JBool true => "true"
  | JBool false => "false"
  | JNum q => NumberToString q
  | JStr s => s
  | JArr _ | JObj _ => ObjectToString v
  end.

(** [parseInt(v)]. *)
Definition parseInt (v : json) : number := parseIntString (String_ v).
End Coercions.

(** [Math.round]: the nearest integer, halves upwards. *)
Definition Math_round (q : Q) : Z := Qfloor (q + (1 # 2)).

End JS.

Export JS.

(** ** The data directory *)

Module Store.

Inductive Content :=
| Garbled
| Parsed (v : json).

Record File := { mtimeMs : Z; content : Content }.

Abbreviation Files := (gmap string File).

(** [JSON.parse(await fs.readFile(p))]; [None] when either throws. *)
Definition readJSON (p : string) (fs : Files) : option json :=
  match fs !! p with
  | Some {| content := Parsed v |} => Some v
  | _ => None
  end.

(** [fs.writeFile(p, JSON.stringify(v))] performed at time [t]. *)
Definition writeJSON (p : string) (t : Z) (v : json) (fs : Files) : Files :=
  <[p := {| mtimeMs := t; content := Parsed v |}]> fs.

(** [name.endsWith(suffix)]. *)
Fixpoint endsWith (suffix name : string) : bool :=
  String.eqb suffix name ||
  match name with
  | EmptyString => false
  | String _ rest => endsWith suffix rest
  end.

End Store.

Export Store.

Record Response := { status : Z; payload : json }.

(** ** Session records

    [interface SessionMessage] and [interface SessionData], declared with
    the same fields in the send route and in the next route.  [msg_id] is
    the field [id]; it holds the request's value until the record is
    written, and a string once it has been loaded. *)

Record SessionMessage := {
  msg_id : json;
  ver : number;
  timestamp : number;
  expiresAt : option number;
}.

Record SessionData := {
  session : json;
  lastVer : option number;
  messages : list SessionMessage;
}.

Definition DEFAULT_MESSAGE_TTL : Z := 5 * 60 * 1000.
Definition MIN_MESSAGE_TTL : Z := 60 * 1000.
Definition MAX_MESSAGE_TTL : Z := 60 * 60 * 1000.

(** [message.expiresAt ?? (message.timestamp + DEFAULT_MESSAGE_TTL)]. *)
Definition expiry (m : SessionMessage) : number :=
  match expiresAt m with
  | Some e => e
  | None => num_add (timestamp m) (num_of_Z DEFAULT_MESSAGE_TTL)
  end.

(** The filter predicate of the purge: [expiresAt > now]. *)
Definition live (now : Z) (m : SessionMessage) : bool :=
  num_gt (expiry m) (num_of_Z now).

(** [purgeExpiredMessages(sessionData, now)]: the record with its queue
    filtered, and whether the length changed. *)
Definition purgeExpiredMessages (sessionData : SessionData) (now : Z)
  : SessionData * bool :=
  let originalLength := length (messages sessionData) in
  let kept := List.filter (live now) (messages sessionData) in
  ({| session := session sessionData;
      lastVer := lastVer sessionData;
      messages := kept |},
   negb (Nat.eqb (length kept) originalLength)).

(** The [reduce] of [ensureLastVersion] and of the next route's save. *)
Definition highestVersion (ms : list SessionMessage) : number :=
  fold_left (fun max message => if num_gt (ver message) max then ver message else max)
            ms (num_of_Z 0).

Definition ensureLastVersion (sessionData : SessionData) : SessionData :=
  match lastVer sessionData with
  | Some _ => sessionData
  | None =>
      {| session := session sessionData;
         lastVer := Some (highestVersion (messages sessionData));
         messages := messages sessionData |}
  end.

(** [JSON.stringify] of a message and of a session record, as
    [JSON.parse] reads it back; a field that is [undefined] is left out.
    The keys of an object are listed in one fixed order (the text written
    for a zero-value record lists [messages] before [lastVer], which reads
    back as the same object). *)
Definition message_json (m : SessionMessage) : json :=
  JObj ([("id", msg_id m);
         ("ver", json_of_number (ver m));
         ("timestamp", json_of_number (timestamp m))]
        ++ match expiresAt m with
           | Some e => [("expiresAt", json_of_number e)]
           | None => []
           end).

Definition session_json (d : SessionData) : json :=
  JObj ([("session", session d)]
        ++ match lastVer d with
           | Some v => [("lastVer", json_of_number v)]
           | None => []
           end
        ++ [("messages", JArr (map message_json (messages d)))]).

(** [sessionData.messages.shift()]. *)
Definition shift (sessionData : SessionData) : SessionData :=
  {| session := session sessionData;
     lastVer := lastVer sessionData;
     messages := tail (messages sessionData) |}.

Section Records.
Context {host : Builtins}.

(** File names: [`${session}.json`] and [`${session}-status.json`]. *)
Definition data_path (session : json) : string :=
  String_ session +:+ ".json".

Definition status_path (session : json) : string :=
  String_ session +:+ "-status.json".

(** The body of [data.messages.map(...)] in [loadSessionData]; [None] is
    the [TypeError] of reading a property of [null]. *)
Definition parseMessage (now : Z) (message : json) : option SessionMessage :=
  i ← member message "id";
  v ← member message "ver";
  t ← member message "timestamp";
  e ← member message "expiresAt";
  Some {| msg_id := JStr (String_ (nullish i (JStr "")));
          ver := Number_ (Some (nullish v (JNum 0)));
          timestamp := Number_ (Some (nullish t (JNum (inject_Z now))));
          expiresAt := if_number e |}.

(** The [try] block of [loadSessionData] up to the construction of
    [sessionData]: [None] when the file is missing or unparsable, when a
    property of [null] is read, or when [messages] is not an array; all of
    these end in the zero-value record. *)
Definition parseSessionData (now : Z) (session : json) (fs : Files)
  : option SessionData :=
  data ← readJSON (data_path session) fs;
  ms ← member data "messages";
  match ms with
  | Some (JArr items) =>
      lv ← member data "lastVer";
      parsed ← mapM (parseMessage now) items;
      Some {| session := session; lastVer := if_number lv; messages := parsed |}
  | _ => None
  end.

Definition zero_record (session : json) : SessionData :=
  {| session := session; lastVer := Some (num_of_Z 0); messages := [] |}.

End Records.

(** ** The send route: [src/app/api/qrseat/send/route.ts] *)

Module Send.

(** The clock readings of one [POST], in program order. *)
Record Clock := {
  t_status : Z;   (* [lastUpdate] of the default status record *)
  t_parse : Z;    (* default [timestamp] of the loaded messages *)
  t_purge : Z;    (* [now] of the purge in [loadSessionData] *)
  t_resave : Z;   (* write of the purged record *)
  t_find : Z;     (* [now] of [findExistingMessage] *)
  t_push : Z;     (* [now] of the new message *)
  t_save : Z;     (* write of the extended record *)
  t_sweep : Z;    (* [now] of [cleanupOldFiles] *)
  t_reply : Z;    (* [time] of the response *)
}.

Section Route.
Context {host : Builtins}.

Definition sanitizeTTL (rawTtl : jsval) : Z :=
  let parsed := Number_ rawTtl in
  if negb (isFinite parsed) then DEFAULT_MESSAGE_TTL
  else if num_lt parsed (num_of_Z MIN_MESSAGE_TTL) then MIN_MESSAGE_TTL
  else if num_gt parsed (num_of_Z MAX_MESSAGE_TTL) then MAX_MESSAGE_TTL
  else match parsed with
       | Fin q => Math_round q
       | NaN => DEFAULT_MESSAGE_TTL
       end.

Definition maxAge : Z := 24 * 60 * 60 * 1000.

(** The test of the sweep on one directory entry. *)
Definition swept (now : Z) (name : string) (f : File) : bool :=
  endsWith ".json" name && (maxAge <? now - mtimeMs f).

(** [cleanupOldFiles()]: unlink every [.json] file older than 24 hours. *)
Definition cleanupOldFiles (now : Z) (fs : Files) : Files :=
  filter (fun entry => swept now entry.1 entry.2 = false) fs.

(** [saveSessionData(data)] assigns [data.lastVer] in place before it
    writes, so the caller's record is returned as well. *)
Definition saveSessionData (t : Z) (data : SessionData) (fs : Files)
  : SessionData * Files :=
  let data := ensureLastVersion data in
  (data, writeJSON (data_path (session data)) t (session_json data) fs).

Definition loadSessionData (clk : Clock) (session : json) (fs : Files)
  : SessionData * Files :=
  match parseSessionData (t_parse clk) session fs with
  | None => (zero_record session, fs)
  | Some sessionData =>
      let '(purged, removed) := purgeExpiredMessages sessionData (t_purge clk) in
      let ensured := ensureLastVersion purged in
      if removed then saveSessionData (t_resave clk) ensured fs else (ensured, fs)
  end.

Definition findExistingMessage (sessionData : SessionData) (id : json) (now : Z)
  : option number :=
  ver <$> List.find (fun msg => strict_eq (msg_id msg) id && live now msg)
                    (messages sessionData).

Definition loadSessionStatus (clk : Clock) (session : json) (fs : Files) : json :=
  match readJSON (status_path session) fs with
  | Some parsed => parsed
  | None => JObj [("session", session); ("active", JBool false);
                  ("lastUpdate", JNum (inject_Z (t_status clk)))]
  end.

Definition missing_fields : Response :=
  {| status := 400;
     payload := JObj [("ok", JBool false); ("error", JStr "Missing session or id")] |}.

Definition not_active : Response :=
  {| status := 403;
     payload := JObj [("ok", JBool false); ("error", JStr "Session not active");
                      ("sessionActive", JBool false)] |}.

Definition server_error : Response :=
  {| status := 500;
     payload := JObj [("ok", JBool false); ("error", JStr "Server error")] |}.

Definition duplicate_reply (existingVer : number) (time : Z) : Response :=
  {| status := 200;
     payload := JObj [("ok", JBool true); ("ver", json_of_number existingVer);
                      ("time", JNum (inject_Z time)); ("duplicate", JBool true)] |}.

Definition accepted_reply (newVer : number) (time : Z) : Response :=
  {| status := 200;
     payload := JObj [("ok", JBool true); ("ver", json_of_number newVer);
                      ("time", JNum (inject_Z time))] |}.

(** The version given to a new message:
    [(sessionData.lastVer ?? sessionData.messages.length) + 1]. *)
Definition nextVersion (sessionData : SessionData) : number :=
  num_add (match lastVer sessionData with
           | Some v => v
           | None => num_of_Z (Z.of_nat (length (messages sessionData)))
           end)
          (num_of_Z 1).

(** The record after [sessionData.lastVer = newVer] and the [push]. *)
Definition enqueue (sessionData : SessionData) (id : json) (newVer : number)
  (ttl now : Z) : SessionData :=
  {| session := session sessionData;
     lastVer := Some newVer;
     messages := messages sessionData ++
                 [{| msg_id := id; ver := newVer; timestamp := num_of_Z now;
                     expiresAt := Some (num_add (num_of_Z now) (num_of_Z ttl)) |}] |}.

(** [POST]: the state returned is the directory once the handler has
    replied and the sweep it started on acceptance has run. *)
Definition POST (clk : Clock) (request : Content) (fs : Files) : Response * Files :=
  match request with
  | Garbled => (server_error, fs)
  | Parsed body =>
      match member body "session", member body "id", member body "messageTTL" with
      | Some (Some session), Some (Some id), Some messageTTL =>
          if negb (truthy session) || negb (truthy id) then (missing_fields, fs)
          else
            let ttl := sanitizeTTL messageTTL in
            let sessionStatus := loadSessionStatus clk session fs in
            match member sessionStatus "active" with
            | None => (server_error, fs)
            | Some active =>
                if negb (truthy_val active) then (not_active, fs)
                else
                  let '(sessionData, fs) := loadSessionData clk session fs in
                  match findExistingMessage sessionData id (t_find clk) with
                  | Some existingVer =>
                      (duplicate_reply existingVer (t_reply clk), fs)
                  | None =>
                      let newVer := nextVersion sessionData in
                      let sessionData :=
                        enqueue sessionData id newVer ttl (t_push clk) in
                      let '(_, fs) := saveSessionData (t_save clk) sessionData fs in
                      let fs := cleanupOldFiles (t_sweep clk) fs in
                      (accepted_reply newVer (t_reply clk), fs)
                  end
            end
      | Some _, Some _, Some _ => (missing_fields, fs)
      | _, _, _ => (server_error, fs)
      end
  end.

End Route.
End Send.

(** ** The next route: the second module of
    [src/app/api/qrseat/viewers/route.ts] (lines 131-250) *)

Module Next.

Record Clock := {
  t_parse : Z;    (* default [timestamp] of the loaded messages *)
  t_purge : Z;    (* [now] of the purge in [loadSessionData] *)
  t_resave : Z;   (* write of the purged record *)
  t_save : Z;     (* write of the record without its head *)
  t_reply : Z;    (* [time] of the response *)
}.

Section Route.
Context {host : Builtins}.

(** This route's [saveSessionData] computes a missing [lastVer] itself,
    with the same [reduce] as [ensureLastVersion], and assigns it to the
    caller's record. *)
Definition saveSessionData (t : Z) (data : SessionData) (fs : Files)
  : SessionData * Files :=
  let data :=
    match lastVer data with
    | Some _ => data
    | None => {| session := session data;
                 lastVer := Some (highestVersion (messages data));
                 messages := messages data |}
    end in
  (data, writeJSON (data_path (session data)) t (session_json data) fs).

Definition loadSessionData (clk : Clock) (session : json) (fs : Files)
  : SessionData * Files :=
  match parseSessionData (t_parse clk) session fs with
  | None => (zero_record session, fs)
  | Some sessionData =>
      let '(purged, removed) := purgeExpiredMessages sessionData (t_purge clk) in
      if removed then saveSessionData (t_resave clk) purged fs else (purged, fs)
  end.

Definition missing_session : Response :=
  {| status := 400;
     payload := JObj [("ok", JBool false); ("error", JStr "Missing session parameter")] |}.

Definition delivered_reply (id : json) (time : Z) : Response :=
  {| status := 200;
     payload := JObj [("ok", JBool true); ("id", id); ("time", JNum (inject_Z time))] |}.

Definition empty_reply (time : Z) : Response :=
  {| status := 200;
     payload := JObj [("ok", JBool true); ("time", JNum (inject_Z time))] |}.

(** [GET]; [param] is [searchParams.get('session')]. *)
Definition GET (clk : Clock) (param : option string) (fs : Files) : Response * Files :=
  match param with
  | None | Some "" => (missing_session, fs)
  | Some name =>
      let session := JStr name in
      let '(sessionData, fs) := loadSessionData clk session fs in
      match messages sessionData with
      | firstMessage :: _ =>
          let sessionData := shift sessionData in
          let '(_, fs) := saveSessionData (t_save clk) sessionData fs in
          (delivered_reply (msg_id firstMessage) (t_reply clk), fs)
      | [] => (empty_reply (t_reply clk), fs)
      end
  end.

End Route.
End Next.

(** ** The status route: [src/app/api/qrseat/status/route.ts] *)

Module Status.

Record Clock := {
  t_now : Z;      (* [lastUpdate] of the record, written or defaulted *)
  t_write : Z;    (* write of the status file *)
}.

Section Route.
Context {host : Builtins}.

Definition loadSessionStatus (clk : Clock) (session : json) (fs : Files) : json :=
  match readJSON (status_path session) fs with
  | Some parsed => parsed
  | None => JObj [("session", session); ("active", JBool false);
                  ("lastUpdate", JNum (inject_Z (t_now clk)))]
  end.

(** [saveSessionStatus(status)], on the record [{session, active, lastUpdate}]. *)
Definition saveSessionStatus (t : Z) (session : json) (active : bool) (lastUpdate : Z)
  (fs : Files) : Files :=
  writeJSON (status_path session) t
            (JObj [("session", session); ("active", JBool active);
                   ("lastUpdate", JNum (inject_Z lastUpdate))])
            fs.

Definition reply (code : Z) (fields : list (string * jsval)) : Response :=
  {| status := code;
     payload := JObj (omap (fun kv => pair kv.1 <$> kv.2) fields) |}.

Definition server_error : Response :=
  reply 500 [("ok", Some (JBool false)); ("error", Some (JStr "Server error"))].

(** [GET]; [param] is [searchParams.get('session')]. *)
Definition GET (clk : Clock) (param : option string) (fs : Files) : Response * Files :=
  match param with
  | None | Some "" =>
      (reply 400 [("ok", Some (JBool false)); ("error", Some (JStr "Missing session"))], fs)
  | Some name =>
      let status := loadSessionStatus clk (JStr name) fs in
      match member status "active", member status "lastUpdate" with
      | Some active, Some lastUpdate =>
          (reply 200 [("ok", Some (JBool true)); ("active", active);
                      ("lastUpdate", lastUpdate)], fs)
      | _, _ => (server_error, fs)
      end
  end.

Definition POST (clk : Clock) (request : Content) (fs : Files) : Response * Files :=
  match request with
  | Garbled => (server_error, fs)
  | Parsed body =>
      match member body "session", member body "active" with
      | Some (Some session), Some (Some (JBool active)) =>
          if negb (truthy session)
          then (reply 400 [("ok", Some (JBool false));
                           ("error", Some (JStr "Missing session or active state"))], fs)
          else
            let fs := saveSessionStatus (t_write clk) session active (t_now clk) fs in
            (reply 200 [("ok", Some (JBool true))], fs)
      | Some _, Some _ =>
          (reply 400 [("ok", Some (JBool false));
                      ("error", Some (JStr "Missing session or active state"))], fs)
      | _, _ => (server_error, fs)
      end
  end.

End Route.
End Status.

(** ** The viewers route: the first module of
    [src/app/api/qrseat/viewers/route.ts] (lines 1-130) *)

Module Viewers.

Record Clock := {
  t_now : Z;      (* [now] of the staleness test and of the new entry *)
  t_write : Z;    (* write of [viewers.json] *)
}.

(** [Array.prototype.filter] with a callback that may throw. *)
Fixpoint filterE {A} (p : A -> option bool) (l : list A) : option (list A) :=
  match l with
  | [] => Some []
  | x :: rest =>
      keep ← p x;
      kept ← filterE p rest;
      Some (if keep : bool then x :: kept else kept)
  end.

Section Route.
Context {host : Builtins}.

Definition viewersFile : string := "viewers.json".

(** The array the handlers start from: the parsed file, or [[]] when it is
    missing or unparsable. *)
Definition readViewers (fs : Files) : json :=
  match readJSON viewersFile fs with
  | Some parsed => parsed
  | None => JArr []
  end.

(** [viewers.filter(callback)]; anything but an array has no [filter]. *)
Definition filterViewers (callback : json -> option bool) (viewers : json)
  : option (list json) :=
  match viewers with
  | JArr items => filterE callback items
  | _ => None
  end.

(** [(now - v.timestamp) < 10000]. *)
Definition fresh (now : Z) (v : json) : option bool :=
  t ← member v "timestamp";
  Some (num_lt (num_sub (num_of_Z now) (Number_ t)) (num_of_Z 10000)).

(** [v.operatorId === n] for a number [n]. *)
Definition operator_is (n : number) (v : json) : option bool :=
  o ← member v "operatorId";
  Some (match o with
        | Some (JNum q) => num_eq (Fin q) n
        | _ => false
        end).

(** [v.deviceId !== deviceId]. *)
Definition other_device (deviceId : json) (v : json) : option bool :=
  d ← member v "deviceId";
  Some (match d with
        | Some x => negb (strict_eq x deviceId)
        | None => true
        end).

Definition reply (code : Z) (fields : list (string * json)) : Response :=
  {| status := code; payload := JObj fields |}.

(** The [catch] of this route replies with the text of the error, which
    is not modelled: only the status code and [ok] are. *)
Definition server_error : Response := reply 500 [("ok", JBool false)].

(** [GET]; [param] is [searchParams.get('operatorId')]. *)
Definition GET (clk : Clock) (param : option string) (fs : Files) : Response * Files :=
  match param with
  | None | Some "" =>
      (reply 400 [("ok", JBool false); ("error", JStr "Missing operatorId")], fs)
  | Some operatorId =>
      let viewers := readViewers fs in
      let now := t_now clk in
      match filterViewers
              (fun v =>
                 same ← operator_is (parseInt (JStr operatorId)) v;
                 if same : bool then fresh now v else Some false)
              viewers with
      | Some activeViewers =>
          (reply 200 [("ok", JBool true); ("viewers", JArr activeViewers)], fs)
      | None => (server_error, fs)
      end
  end.

(** The entry pushed by a registration. *)
Definition entry (deviceId operatorName operatorId : json) (now : Z) : json :=
  JObj [("deviceId", deviceId); ("operatorName", operatorName);
        ("operatorId", json_of_number (parseInt operatorId));
        ("timestamp", JNum (inject_Z now))].

Definition missing_fields : Response :=
  reply 400 [("ok", JBool false);
             ("error", JStr "Missing required fields: deviceId, operatorName, operatorId")].

Definition POST (clk : Clock) (request : Content) (fs : Files) : Response * Files :=
  match request with
  | Garbled => (server_error, fs)
  | Parsed body =>
      match member body "deviceId", member body "operatorName",
            member body "operatorId" with
      | Some (Some deviceId), Some (Some operatorName), Some (Some operatorId) =>
          if negb (truthy deviceId) || negb (truthy operatorName)
             || negb (truthy operatorId)
          then (missing_fields, fs)
          else
            let viewers := readViewers fs in
            let now := t_now clk in
            match filterViewers (fresh now) viewers with
            | Some viewers =>
                match filterE (other_device deviceId) viewers with
                | Some viewers =>
                    let viewers := viewers ++ [entry deviceId operatorName operatorId now] in
                    (reply 200 [("ok", JBool true)],
                     writeJSON viewersFile (t_write clk) (JArr viewers) fs)
                | None => (server_error, fs)
                end
            | None => (server_error, fs)
            end
      | Some _, Some _, Some _ => (missing_fields, fs)
      | _, _, _ => (server_error, fs)
      end
  end.

(** [DELETE]; [param] is [searchParams.get('deviceId')]. *)
Definition DELETE (clk : Clock) (param : option string) (fs : Files) : Response * Files :=
  match param with
  | None | Some "" =>
      (reply 400 [("ok", JBool false); ("error", JStr "Missing deviceId")], fs)
  | Some deviceId =>
      match filterViewers (other_device (JStr deviceId)) (readViewers fs) with
      | Some viewers =>
          (reply 200 [("ok", JBool true)],
           writeJSON viewersFile (t_write clk) (JArr viewers) fs)
      | None => (server_error, fs)
      end
  end.

End Route.
End Viewers.

(** ** The earlier next route: the third module of
    [src/app/api/qrseat/viewers/route.ts] (lines 251-332)

    This revision keeps the parsed file as it is: no purge, no [lastVer],
    no conversion of the messages.  It writes the whole object back, to the
    file named by the [session] stored in it. *)

Module NextLegacy.

Record Clock := {
  t_save : Z;     (* write of the record without its head *)
  t_reply : Z;    (* [time] of the response *)
}.

(** Assignment to a property of an object that was parsed from a file:
    the value at the key is replaced where it stands; a new key goes last. *)
Fixpoint set_field (k : string) (v : json) (kvs : list (string * json))
  : list (string * json) :=
  match kvs with
  | [] => [(k, v)]
  | (k', x) :: rest =>
      if String.eqb k k' then (k', v) :: rest else (k', x) :: set_field k v rest
  end.

Section Route.
Context {host : Builtins}.

(** Interpolation [`${v}`] of a value that may be [undefined]. *)
Definition interpolate (v : jsval) : string :=
  match v with
  | Some x => String_ x
  | None => "undefined"
  end.

(** [loadSessionData(session)]: the fields of the parsed object when its
    [messages] is an array, otherwise those of [{session, messages: []}]. *)
Definition loadSessionData (session : json) (fs : Files) : list (string * json) :=
  let fresh := [("session", session); ("messages", JArr [])] in
  match readJSON (data_path session) fs with
  | Some (JObj fields) =>
      match assoc "messages" fields with
      | Some (JArr _) => fields
      | _ => fresh
      end
  | _ => fresh
  end.

(** [saveSessionData(data)]: the file is named after [data.session]. *)
Definition saveSessionData (t : Z) (data : list (string * json)) (fs : Files) : Files :=
  writeJSON (interpolate (assoc "session" data) +:+ ".json") t (JObj data) fs.

Definition reply (code : Z) (fields : list (string * jsval)) : Response :=
  {| status := code;
     payload := JObj (omap (fun kv => pair kv.1 <$> kv.2) fields) |}.

(** [GET]; [param] is [searchParams.get('session')]. *)
Definition GET (clk : Clock) (param : option string) (fs : Files) : Response * Files :=
  match param with
  | None | Some "" =>
      (reply 400 [("ok", Some (JBool false));
                  ("error", Some (JStr "Missing session parameter"))], fs)
  | Some name =>
      let sessionData := loadSessionData (JStr name) fs in
      let empty := (reply 200 [("ok", Some (JBool true));
                               ("time", Some (JNum (inject_Z (t_reply clk))))], fs) in
      match assoc "messages" sessionData with
      | Some (JArr (firstMessage :: rest)) =>
          if truthy firstMessage then
            let sessionData := set_field "messages" (JArr rest) sessionData in
            let fs := saveSessionData (t_save clk) sessionData fs in
            match member firstMessage "id" with
            | Some id =>
                (reply 200 [("ok", Some (JBool true)); ("id", id);
                            ("time", Some (JNum (inject_Z (t_reply clk))))], fs)
            | None =>
                (reply 500 [("ok", Some (JBool false));
                            ("error", Some (JStr "Server error"))], fs)
            end
          else empty
      | _ => empty
      end
  end.

End Route.
End NextLegacy.

(** ** The earlier send route: [src/unnamed/part_004]

    The revision that wrote records without [lastVer] and messages without
    [expiresAt].  Like the earlier next route it works on the parsed file
    as it is. *)

Module SendLegacy.

Record Clock := {
  t_status : Z;   (* [lastUpdate] of the default status record *)
  t_push : Z;     (* [timestamp] of the new message *)
  t_save : Z;     (* write of the extended record *)
  t_sweep : Z;    (* [now] of [cleanupOldFiles] *)
  t_reply : Z;    (* [time] of the response *)
}.

(** [Array.prototype.find] with a callback that may throw: the entries
    after the first match are not visited. *)
Fixpoint findE {A} (p : A -> option bool) (l : list A) : option (option A) :=
  match l with
  | [] => Some None
  | x :: rest =>
      found ← p x;
      if found : bool then Some (Some x) else findE p rest
  end.

Section Route.
Context {host : Builtins}.

Definition maxAge : Z := 24 * 60 * 60 * 1000.

Definition cleanupOldFiles (now : Z) (fs : Files) : Files :=
  filter (fun entry => (endsWith ".json" entry.1
                        && (maxAge <? now - mtimeMs entry.2)) = false) fs.

Definition loadSessionData (session : json) (fs : Files) : list (string * json) :=
  let fresh := [("session", session); ("messages", JArr [])] in
  match readJSON (data_path session) fs with
  | Some (JObj fields) =>
      match assoc "messages" fields with
      | Some (JArr _) => fields
      | _ => fresh
      end
  | _ => fresh
  end.

Definition saveSessionData (t : Z) (data : list (string * json)) (fs : Files) : Files :=
  writeJSON (NextLegacy.interpolate (assoc "session" data) +:+ ".json") t (JObj data) fs.

(** [msg.id === id]. *)
Definition same_id (id : json) (msg : json) : option bool :=
  i ← member msg "id";
  Some (match i with
        | Some x => strict_eq x id
        | None => false
        end).

(** [findExistingMessage(sessionData, id)] on the array
    [sessionData.messages].  The outer [None] is a [TypeError]; of the
    result, [None] is [null] -- nothing found, or a [ver] that is [null]
    -- and [Some v] is the [ver] of the message found, [undefined] when it
    has none. *)
Definition findExistingMessage (items : list json) (id : json) : option (option jsval) :=
  existing ← findE (same_id id) items;
  match existing with
  | Some msg =>
      if truthy msg then
        v ← member msg "ver";
        Some (match v with
              | Some JNull => None
              | _ => Some v
              end)
      else Some None
  | None => Some None
  end.

Definition loadSessionStatus (clk : Clock) (session : json) (fs : Files) : json :=
  match readJSON (status_path session) fs with
  | Some parsed => parsed
  | None => JObj [("session", session); ("active", JBool false);
                  ("lastUpdate", JNum (inject_Z (t_status clk)))]
  end.

Definition reply (code : Z) (fields : list (string * jsval)) : Response :=
  {| status := code;
     payload := JObj (omap (fun kv => pair kv.1 <$> kv.2) fields) |}.

Definition server_error : Response :=
  reply 500 [("ok", Some (JBool false)); ("error", Some (JStr "Server error"))].

Definition missing_fields : Response :=
  reply 400 [("ok", Some (JBool false)); ("error", Some (JStr "Missing session or id"))].

Definition not_active : Response :=
  reply 403 [("ok", Some (JBool false)); ("error", Some (JStr "Session not active"));
             ("sessionActive", Some (JBool false))].

(** The message pushed by an accepted send. *)
Definition new_message (id : json) (newVer now : Z) : json :=
  JObj [("id", id); ("ver", JNum (inject_Z newVer));
        ("timestamp", JNum (inject_Z now))].

(** [POST]: the state returned is the directory once the handler has
    replied and the sweep it started on acceptance has run. *)
Definition POST (clk : Clock) (request : Content) (fs : Files) : Response * Files :=
  match request with
  | Garbled => (server_error, fs)
  | Parsed body =>
      match member body "session", member body "id" with
      | Some (Some session), Some (Some id) =>
          if negb (truthy session) || negb (truthy id) then (missing_fields, fs)
          else
            let sessionStatus := loadSessionStatus clk session fs in
            match member sessionStatus "active" with
            | None => (server_error, fs)
            | Some active =>
                if negb (truthy_val active) then (not_active, fs)
                else
                  let sessionData := loadSessionData session fs in
                  match assoc "messages" sessionData with
                  | Some (JArr items) =>
                      match findExistingMessage items id with
                      | None => (server_error, fs)
                      | Some (Some existingVer) =>
                          (reply 200 [("ok", Some (JBool true)); ("ver", existingVer);
                                      ("time", Some (JNum (inject_Z (t_reply clk))));
                                      ("duplicate", Some (JBool true))], fs)
                      | Some None =>
                          let newVer := Z.of_nat (length items) + 1 in
                          let sessionData :=
                            NextLegacy.set_field "messages"
                              (JArr (items ++ [new_message id newVer (t_push clk)]))
                              sessionData in
                          let fs := saveSessionData (t_save clk) sessionData fs in
                          let fs := cleanupOldFiles (t_sweep clk) fs in
                          (reply 200 [("ok", Some (JBool true));
                                      ("ver", Some (JNum (inject_Z newVer)));
                                      ("time", Some (JNum (inject_Z (t_reply clk))))], fs)
                      end
                  | _ => (server_error, fs)
                  end
            end
      | Some _, Some _ => (missing_fields, fs)
      | _, _ => (server_error, fs)
      end
  end.

End Route.
End SendLegacy.

(** ** A host for closed examples

    The conversions restricted to decimal integers, on which they agree
    with ECMAScript: [Number("120000")] is [120000], [parseInt("2")] and
    [parseInt(2)] are [2], [String(2)] is ["2"].  Other texts convert to
    [NaN]. *)

Module DecimalHost.

Definition is_digit (c : ascii) : bool :=
  ((48 <=? nat_of_ascii c) && (nat_of_ascii c <=? 57))%nat.

Fixpoint digits (s : string) : string :=
  match s with
  | String c rest => if is_digit c then String c (digits rest) else ""
  | EmptyString => ""
  end.

Definition natural (s : string) : number :=
  match s with
  | "" => NaN
  | _ => match NilEmpty.uint_of_string s with
         | Some u => num_of_Z (Z.of_uint u)
         | None => NaN
         end
  end.

Definition parse_int (s : string) : number :=
  match s with
  | String "-" rest => num_sub (num_of_Z 0) (natural (digits rest))
  | _ => natural (digits s)
  end.

Definition to_number (s : string) : number :=
  match s with
  | "" => num_of_Z 0
  | _ => if String.eqb (digits s) s then natural s else NaN
  end.

Definition print (q : Q) : string :=
  NilZero.string_of_int (Z.to_int (Qfloor q)).

Definition host : Builtins :=
  {| StringToNumber := to_number;
     NumberToString := print;
     ObjectToString := fun _ => "[object Object]";
     parseIntString := parse_int |}.

End DecimalHost.

(** ** Observations used in the statements *)

Section Observations.
Context {host : Builtins}.

(** The gate as the send route reads it: [Some false] for a missing or
    unparsable status file, otherwise the truthiness of [active]; [None]
    when the file holds [null] and the access throws. *)
Definition gate (session : json) (fs : Files) : option bool :=
  match readJSON (status_path session) fs with
  | None => Some false
  | Some parsed => truthy_val <$> member parsed "active"
  end.

(** The record as [loadSessionData] builds it before the purge. *)
Definition stored (now : Z) (session : json) (fs : Files) : SessionData :=
  match parseSessionData now session fs with
  | Some sessionData => sessionData
  | None => zero_record session
  end.

End Observations.

(** Order on numbers, false on [NaN]. *)
Definition num_le (a b : number) : Prop :=
  match a, b with
  | Fin x, Fin y => (x <= y)%Q
  | _, _ => False
  end.

Definition num_less (a b : number) : Prop :=
  match a, b with
  | Fin x, Fin y => (x < y)%Q
  | _, _ => False
  end.

(** At most one live message per [id]: the ids of the messages that are
    live at [now] are pairwise distinct. *)
Definition unique_live (now : Z) (ms : list SessionMessage) : Prop :=
  NoDup (map msg_id (List.filter (live now) ms)).

(** A message whose numbers are all finite, as every message the send
    route creates. *)
Definition finite_message (m : SessionMessage) : Prop :=
  isFinite (ver m) = true /\ isFinite (timestamp m) = true
  /\ (forall e, expiresAt m = Some e -> isFinite e = true).

Section Polling.
Context {host : Builtins}.

(** A message as it is read back once written: its [id] has gone through
    [String(message.id ?? '')]. *)
Definition reloaded (m : SessionMessage) : SessionMessage :=
  {| msg_id := JStr (String_ (nullish (Some (msg_id m)) (JStr "")));
     ver := ver m; timestamp := timestamp m; expiresAt := expiresAt m |}.

(** Successive polls of one session, one clock record per call. *)
Fixpoint poll (clks : list Next.Clock) (name : string) (fs : Files)
  : list Response * Files :=
  match clks with
  | [] => ([], fs)
  | clk :: rest =>
      let '(response, fs) := Next.GET clk (Some name) fs in
      let '(responses, fs) := poll rest name fs in
      (response :: responses, fs)
  end.

End Polling.

(** A filter callback read as a total test: an entry on which the
    callback would throw does not pass. *)
Definition passes {A} (callback : A -> option bool) (v : A) : bool :=
  match callback v with
  | Some keep => keep
  | None => false
  end.

(** Whether a registry entry belongs to a device. *)
Definition device_is (deviceId : json) (v : json) : bool :=
  match member v "deviceId" with
  | Some (Some d) => strict_eq d deviceId
  | _ => false
  end.

(** ** Histories of one session

    The requests that touch the files of one session, served one after the
    other. *)

Inductive request :=
| Send (clk : Send.Clock) (id : json) (messageTTL : jsval)
| Poll (clk : Next.Clock)
| Toggle (clk : Status.Clock) (active : bool).

(** The body [{session, id, messageTTL}] of a send; an [undefined]
    [messageTTL] is left out. *)
Definition send_request (name : string) (id : json) (messageTTL : jsval) : Content :=
  Parsed (JObj ([("session", JStr name); ("id", id)]
                ++ match messageTTL with
                   | Some v => [("messageTTL", v)]
                   | None => []
                   end)).

Definition toggle_request (name : string) (active : bool) : Content :=
  Parsed (JObj [("session", JStr name); ("active", JBool active)]).



(** Versions that increase strictly from above [lo] and end at most at
    [L]. *)
Fixpoint ascending (lo : Q) (ms : list SessionMessage) (L : Q) : Prop :=
  match ms with
  | [] => (lo <= L)%Q
  | m :: rest => exists v, ver m = Fin v /\ (lo < v)%Q /\ ascending v rest L
  end.



Section Histories.
Context {host : Builtins}.

Definition serve (name : string) (r : request) (fs : Files) : Response * Files :=
  match r with
  | Send clk id messageTTL => Send.POST clk (send_request name id messageTTL) fs
  | Poll clk => Next.GET clk (Some name) fs
  | Toggle clk active => Status.POST clk (toggle_request name active) fs
  end.

Fixpoint serve_all (name : string) (rs : list request) (fs : Files)
  : list Response * Files :=
  match rs with
  | [] => ([], fs)
  | r :: rest =>
      let '(reply, fs) := serve name r fs in
      let '(replies, fs) := serve_all name rest fs in
      (reply :: replies, fs)
  end.



(** The session's file reads, whatever the clock, as a record whose
    [lastVer] is [L] and whose queue holds finite messages with versions
    ascending from above [lo] to at most [L]. *)
Definition tracked (name : string) (lo L : Q) (fs : Files) : Prop :=
  forall now,
    lastVer (stored now (JStr name) fs) = Some (Fin L)
    /\ Forall finite_message (messages (stored now (JStr name) fs))
    /\ ascending lo (messages (stored now (JStr name) fs)) L.

End Histories.

(** The queue file of a session as the earlier send route leaves it. *)
Definition legacy_file (name : string) (items : list json) : json :=
  JObj [("session", JStr name); ("messages", JArr items)].

(** ** Sample data for the closed examples *)

Module Sample.

(** A send whose clock readings start at [t]. *)
Definition send_clock (t : Z) : Send.Clock :=
  {| Send.t_status := t; Send.t_parse := t; Send.t_purge := t;
     Send.t_resave := t + 1; Send.t_find := t + 1; Send.t_push := t + 2;
     Send.t_save := t + 2; Send.t_sweep := t + 3; Send.t_reply := t + 3 |}.

Definition next_clock (t : Z) : Next.Clock :=
  {| Next.t_parse := t; Next.t_purge := t; Next.t_resave := t + 1;
     Next.t_save := t + 1; Next.t_reply := t + 2 |}.

Definition status_clock (t : Z) : Status.Clock :=
  {| Status.t_now := t; Status.t_write := t |}.

Definition viewers_clock (t : Z) : Viewers.Clock :=
  {| Viewers.t_now := t; Viewers.t_write := t |}.

Definition legacy_send_clock (t : Z) : SendLegacy.Clock :=
  {| SendLegacy.t_status := t; SendLegacy.t_push := t + 2; SendLegacy.t_save := t + 2;
     SendLegacy.t_sweep := t + 3; SendLegacy.t_reply := t + 3 |}.

Definition legacy_next_clock (t : Z) : NextLegacy.Clock :=
  {| NextLegacy.t_save := t + 1; NextLegacy.t_reply := t + 2 |}.

(** The body [{session, id}] of a send, with [messageTTL] when given. *)
Definition send_body (s id : string) (ttl : jsval) : json :=
  JObj ([("session", JStr s); ("id", JStr id)]
        ++ match ttl with
           | Some v => [("messageTTL", v)]
           | None => []
           end).

(** A status file as the status route writes it. *)
Definition status_file (s : string) (active : bool) (t : Z) : File :=
  {| mtimeMs := t;
     content := Parsed (JObj [("session", JStr s); ("active", JBool active);
                              ("lastUpdate", JNum (inject_Z t))]) |}.

(** The directory after session [operator-1] was activated at time 1000. *)
Definition activated : Files :=
  {[ "operator-1-status.json" := status_file "operator-1" true 1000 ]}.



(** A status file whose [active] is the text ["false"]. *)
Definition text_flag : Files :=
  {[ "operator-1-status.json" :=
       {| mtimeMs := 1000;
          content := Parsed (JObj [("session", JStr "operator-1");
                                   ("active", JStr "false");
                                   ("lastUpdate", JNum 1000)]) |} ]}.

(** Twenty-five hours after time 1000. *)
Definition next_day : Z := 1000 + 25 * 60 * 60 * 1000.

(** The record of [operator-1] after ["X"] was accepted at time 2002
    with the default ttl, and the directory holding it. *)
Definition message_X : SessionMessage :=
  {| msg_id := JStr "X"; ver := num_of_Z 1; timestamp := num_of_Z 2002;
     expiresAt := Some (num_of_Z 302002) |}.

Definition one_message : SessionData :=
  {| session := JStr "operator-1"; lastVer := Some (num_of_Z 1);
     messages := [message_X] |}.

Definition queued : Files :=
  <["operator-1.json" :=
      {| mtimeMs := 2002; content := Parsed (session_json one_message) |}]> activated.

(** The registration [{deviceId, operatorName, operatorId}]. *)
Definition viewer_body (d operatorName : string) (operatorId : Z) : json :=
  JObj [("deviceId", JStr d); ("operatorName", JStr operatorName);
        ("operatorId", JNum (inject_Z operatorId))].

Definition viewer (d operatorName : string) (operatorId t : Z) : json :=
  JObj [("deviceId", JStr d); ("operatorName", JStr operatorName);
        ("operatorId", JNum (inject_Z operatorId)); ("timestamp", JNum (inject_Z t))].

(** The directory after device [d1] registered as Mario with operator 2
    at time 1000. *)
Definition registered : Files :=
  {[ "viewers.json" :=
       {| mtimeMs := 1000; content := Parsed (JArr [viewer "d1" "Mario" 2 1000]) |} ]}.


(** Two sends, three polls and another send on [operator-1]. *)
Definition history : list request :=
  [Send (send_clock 2000) (JStr "A") None;
   Send (send_clock 3000) (JStr "B") None;
   Poll (next_clock 4000);
   Poll (next_clock 5000);
   Poll (next_clock 6000);
   Send (send_clock 7000) (JStr "A") None].

End Sample.

(** * Properties *)

(** ** Numbers and strings *)

Lemma num_gt_less a b : num_gt a b = true <-> num_less b a.
Proof.
  destruct a as [|x], b as [|y]; simpl; try (split; [discriminate | tauto]).
  rewrite negb_true_iff. split.
  - intros H. apply Qnot_le_lt. intros Hle.
    apply Qle_bool_iff in Hle. congruence.
  - intros H. destruct (Qle_bool x y) eqn:E; [|reflexivity].
    apply Qle_bool_iff in E. exfalso. apply (Qlt_not_le _ _ H E).
Qed.

Lemma num_gt_false a b : isFinite a = true -> isFinite b = true ->
  num_gt a b = false -> num_le a b.
Proof.
  destruct a as [|x], b as [|y]; simpl; try discriminate.
  intros _ _ H. apply negb_false_iff in H. now apply Qle_bool_iff.
Qed.


Lemma append_inj (p a b : string) : p +:+ a = p +:+ b -> a = b.
Proof. induction p as [|c p IH]; simpl; [tauto|]. intros [= H]. auto. Qed.

Lemma endsWith_append (p suffix : string) : endsWith suffix (p +:+ suffix) = true.
Proof.
  induction p as [|c p IH]; simpl.
  - destruct suffix; simpl; rewrite ?Ascii.eqb_refl, ?String.eqb_refl; reflexivity.
  - rewrite IH. apply orb_true_r.
Qed.

Section Paths.
Context {host : Builtins}.

(** The two files of one session are distinct. *)
Lemma data_status_paths (session : json) : data_path session <> status_path session.
Proof. unfold data_path, status_path. intros H. apply append_inj in H. discriminate. Qed.

Lemma data_path_json (session : json) : endsWith ".json" (data_path session) = true.
Proof. apply endsWith_append. Qed.

End Paths.

(** ** The send route, case by case *)

Section SendCases.
Context {host : Builtins}.


Lemma loadSessionStatus_active clk session fs :
  truthy_val <$> member (Send.loadSessionStatus clk session fs) "active"
  = gate session fs.
Proof.
  unfold Send.loadSessionStatus, gate.
  destruct (readJSON (status_path session) fs); reflexivity.
Qed.

Lemma parseSessionData_session now s fs d :
  parseSessionData now s fs = Some d -> session d = s.
Proof.
  unfold parseSessionData. intros Hp.
  destruct (readJSON (data_path s) fs) as [data|]; simpl in Hp; [|discriminate].
  destruct (member data "messages") as [[[]|]|]; simpl in Hp; try discriminate.
  destruct (member data "lastVer"); simpl in Hp; [|discriminate].
  destruct (mapM _ items); simpl in Hp; [|discriminate].
  now injection Hp as <-.
Qed.

Lemma stored_session now s fs : session (stored now s fs) = s.
Proof.
  unfold stored. destruct (parseSessionData now s fs) eqn:Hp; [|reflexivity].
  eapply parseSessionData_session; eauto.
Qed.

(** Loading is purging the stored record; the zero-value record has
    nothing to purge. *)
Lemma Send_loadSessionData_stored clk s fs :
  Send.loadSessionData clk s fs =
  let '(purged, removed) :=
    purgeExpiredMessages (stored (Send.t_parse clk) s fs) (Send.t_purge clk) in
  let ensured := ensureLastVersion purged in
  if removed then Send.saveSessionData (Send.t_resave clk) ensured fs
  else (ensured, fs).
Proof.
  unfold Send.loadSessionData, stored.
  destruct (parseSessionData (Send.t_parse clk) s fs); reflexivity.
Qed.

Lemma Send_loadSessionData_session clk s fs :
  session (Send.loadSessionData clk s fs).1 = s.
Proof.
  rewrite Send_loadSessionData_stored. simpl.
  pose proof (stored_session (Send.t_parse clk) s fs) as Hs.
  destruct (negb _); simpl; unfold ensureLastVersion; simpl;
    destruct (lastVer (stored _ _ _)); simpl; exact Hs.
Qed.

(** A request that passes validation is decided by the gate, then by the
    duplicate check. *)
Lemma POST_valid clk body s id rawTtl fs :
  member body "session" = Some (Some s) ->
  member body "id" = Some (Some id) ->
  member body "messageTTL" = Some rawTtl ->
  truthy s = true -> truthy id = true ->
  Send.POST clk (Parsed body) fs =
  match gate s fs with
  | None => (Send.server_error, fs)
  | Some false => (Send.not_active, fs)
  | Some true =>
      let '(sd, fs1) := Send.loadSessionData clk s fs in
      match Send.findExistingMessage sd id (Send.t_find clk) with
      | Some existingVer => (Send.duplicate_reply existingVer (Send.t_reply clk), fs1)
      | None =>
          let newVer := Send.nextVersion sd in
          let sd' := Send.enqueue sd id newVer (Send.sanitizeTTL rawTtl) (Send.t_push clk) in
          (Send.accepted_reply newVer (Send.t_reply clk),
           Send.cleanupOldFiles (Send.t_sweep clk)
             (writeJSON (data_path s) (Send.t_save clk) (session_json sd') fs1))
      end
  end.
Proof.
  intros Hs Hi Ht Ts Ti. unfold Send.POST. rewrite Hs, Hi, Ht, Ts, Ti. simpl.
  rewrite <- (loadSessionStatus_active clk).
  destruct (member (Send.loadSessionStatus clk s fs) "active") as [a|]; simpl;
    [|reflexivity].
  destruct (truthy_val a); simpl; [|reflexivity].
  pose proof (Send_loadSessionData_session clk s fs) as Hsess.
  destruct (Send.loadSessionData clk s fs) as [sd fs1].
  destruct (Send.findExistingMessage sd id (Send.t_find clk)); [reflexivity|].
  simpl in Hsess. unfold Send.saveSessionData. simpl. rewrite Hsess. reflexivity.
Qed.

End SendCases.

(** ** The gate *)

Section GateClosed.
Context {host : Builtins}.


End GateClosed.


(** ** The time to live *)

Lemma Math_round_bounds (lo hi : Z) (q : Q) :
  (inject_Z lo <= q)%Q -> (q <= inject_Z hi)%Q -> lo <= Math_round q <= hi.
Proof.
  intros Hlo Hhi. unfold Math_round. split.
  - rewrite <- (Qfloor_Z lo). apply Qfloor_resp_le. lra.
  - assert (H : (inject_Z (Qfloor (q + (1 # 2))) < inject_Z (hi + 1))%Q).
    { eapply Qle_lt_trans; [apply Qfloor_le|]. rewrite inject_Z_plus.
      change (inject_Z 1) with 1%Q. lra. }
    rewrite <- Zlt_Qlt in H. lia.
Qed.

Section TimeToLive.
Context {host : Builtins}.

Lemma sanitizeTTL_cases (rawTtl : jsval) :
  MIN_MESSAGE_TTL <= Send.sanitizeTTL rawTtl <= MAX_MESSAGE_TTL
  /\ (isFinite (Number_ rawTtl) = false ->
      Send.sanitizeTTL rawTtl = DEFAULT_MESSAGE_TTL)
  /\ (forall q, Number_ rawTtl = Fin q ->
        ((q < inject_Z MIN_MESSAGE_TTL)%Q ->
           Send.sanitizeTTL rawTtl = MIN_MESSAGE_TTL)
        /\ ((inject_Z MAX_MESSAGE_TTL < q)%Q ->
           Send.sanitizeTTL rawTtl = MAX_MESSAGE_TTL)
        /\ ((inject_Z MIN_MESSAGE_TTL <= q)%Q -> (q <= inject_Z MAX_MESSAGE_TTL)%Q ->
           Send.sanitizeTTL rawTtl = Math_round q)).
Proof.
  unfold Send.sanitizeTTL.
  destruct (Number_ rawTtl) as [|q]; simpl.
  { split; [cbv; split; discriminate|]. split; [reflexivity|]. discriminate. }
  unfold num_lt, num_gt, num_of_Z.
  destruct (Qle_bool (inject_Z MIN_MESSAGE_TTL) q) eqn:Elo; simpl.
  - apply Qle_bool_iff in Elo.
    destruct (Qle_bool q (inject_Z MAX_MESSAGE_TTL)) eqn:Ehi; simpl.
    + apply Qle_bool_iff in Ehi.
      split; [now apply Math_round_bounds|]. split; [discriminate|].
      intros q' [= <-]. repeat split; try reflexivity; intros; exfalso; lra.
    + assert (Hgt : (inject_Z MAX_MESSAGE_TTL < q)%Q).
      { apply Qnot_le_lt. intros Hle. apply Qle_bool_iff in Hle. congruence. }
      split; [cbv; split; discriminate|]. split; [discriminate|].
      intros q' [= <-]. repeat split; try reflexivity; intros; exfalso; lra.
  - assert (Hlt : (q < inject_Z MIN_MESSAGE_TTL)%Q).
    { apply Qnot_le_lt. intros Hle. apply Qle_bool_iff in Hle. congruence. }
    split; [cbv; split; discriminate|]. split; [discriminate|].
    intros q' [= <-]. repeat split; try reflexivity; intros; exfalso;
      assert (inject_Z MIN_MESSAGE_TTL < inject_Z MAX_MESSAGE_TTL)%Q
        by (rewrite <- Zlt_Qlt; reflexivity); lra.
Qed.

End TimeToLive.

(** ** The sweep *)

Lemma cleanupOldFiles_lookup now (fs : Files) p :
  Send.cleanupOldFiles now fs !! p =
  match fs !! p with
  | Some f => if Send.swept now p f then None else Some f
  | None => None
  end.
Proof.
  unfold Send.cleanupOldFiles. rewrite map_lookup_filter.
  destruct (fs !! p) as [f|]; simpl; [|reflexivity].
  destruct (Send.swept now p f); reflexivity.
Qed.

Lemma cleanupOldFiles_recent now (fs : Files) p f :
  fs !! p = Some f -> now - mtimeMs f <= Send.maxAge ->
  Send.cleanupOldFiles now fs !! p = Some f.
Proof.
  intros Hp Hage. rewrite cleanupOldFiles_lookup, Hp. unfold Send.swept.
  replace (Send.maxAge <? now - mtimeMs f) with false; [now rewrite andb_false_r|].
  symmetry. apply Z.ltb_ge. exact Hage.
Qed.

Section Accepted.
Context {host : Builtins}.


End Accepted.



(** ** Purging and loading *)

Lemma purge_messages sd now :
  messages (purgeExpiredMessages sd now).1 = List.filter (live now) (messages sd).
Proof. reflexivity. Qed.

Lemma filter_length_same {A} (p : A -> bool) (l : list A) :
  length (List.filter p l) = length l -> List.filter p l = l.
Proof.
  induction l as [|x l IH]; simpl; [reflexivity|].
  destruct (p x); simpl.
  - intros [= H]. f_equal. auto.
  - intros H. pose proof (List.filter_length_le p l). lia.
Qed.

(** The flag of the purge is set exactly when the queue changed. *)
Lemma purge_flag sd now :
  (purgeExpiredMessages sd now).2 = false <->
  messages (purgeExpiredMessages sd now).1 = messages sd.
Proof.
  simpl. rewrite negb_false_iff, Nat.eqb_eq. split.
  - apply filter_length_same.
  - intros ->. reflexivity.
Qed.

Lemma purge_flag_true sd now :
  (purgeExpiredMessages sd now).2 = true <->
  exists m, In m (messages sd) /\ live now m = false.
Proof.
  split.
  - intros H. destruct (forallb (live now) (messages sd)) eqn:E.
    + exfalso. assert (Hf : (purgeExpiredMessages sd now).2 = false).
      { apply purge_flag. simpl. rewrite forallb_forall in E.
        clear H. induction (messages sd) as [|x l IH]; simpl; [reflexivity|].
        rewrite (E x (or_introl eq_refl)). f_equal. apply IH.
        intros y Hy. apply E. now right. }
      congruence.
    + clear H. induction (messages sd) as [|x l IH]; simpl in *; [discriminate|].
      destruct (live now x) eqn:Ex; simpl in E.
      * destruct (IH E) as (m & Hm & Hl). eauto.
      * eauto.
  - intros (m & Hm & Hl). destruct ((purgeExpiredMessages sd now).2) eqn:E; [reflexivity|].
    apply purge_flag in E. simpl in E.
    assert (Hin : In m (List.filter (live now) (messages sd))) by (rewrite E; exact Hm).
    apply filter_In in Hin. destruct Hin as [_ Hin]. congruence.
Qed.

Lemma live_less now m : live now m = true <-> num_less (num_of_Z now) (expiry m).
Proof. apply num_gt_less. Qed.

(** A message that is live at some time was live at every earlier time. *)
Lemma live_earlier t t' m : t <= t' -> live t' m = true -> live t m = true.
Proof.
  intros Ht. rewrite !live_less. unfold num_less, num_of_Z.
  destruct (expiry m) as [|e]; [tauto|].
  intros H. eapply Qle_lt_trans; [|exact H]. now rewrite <- Zle_Qle.
Qed.

Section Loading.
Context {host : Builtins}.

Lemma Next_loadSessionData_stored clk s fs :
  Next.loadSessionData clk s fs =
  let '(purged, removed) :=
    purgeExpiredMessages (stored (Next.t_parse clk) s fs) (Next.t_purge clk) in
  if removed then Next.saveSessionData (Next.t_resave clk) purged fs
  else (purged, fs).
Proof.
  unfold Next.loadSessionData, stored.
  destruct (parseSessionData (Next.t_parse clk) s fs); reflexivity.
Qed.

Lemma ensureLastVersion_messages sd :
  messages (ensureLastVersion sd) = messages sd.
Proof. unfold ensureLastVersion. destruct (lastVer sd); reflexivity. Qed.



Lemma Next_saveSessionData_ensure t sd fs :
  Next.saveSessionData t sd fs
  = (ensureLastVersion sd,
     writeJSON (data_path (session sd)) t (session_json (ensureLastVersion sd)) fs).
Proof.
  unfold Next.saveSessionData, ensureLastVersion. destruct (lastVer sd); reflexivity.
Qed.



Lemma Next_load_messages clk s fs :
  messages (Next.loadSessionData clk s fs).1
  = List.filter (live (Next.t_purge clk)) (messages (stored (Next.t_parse clk) s fs)).
Proof.
  rewrite Next_loadSessionData_stored. simpl.
  destruct (negb _); simpl; [|reflexivity].
  destruct (lastVer _); reflexivity.
Qed.


Lemma Next_load_files clk s fs :
  (Next.loadSessionData clk s fs).2 =
  let purged := (purgeExpiredMessages (stored (Next.t_parse clk) s fs) (Next.t_purge clk)) in
  if purged.2
  then writeJSON (data_path s) (Next.t_resave clk)
                 (session_json (ensureLastVersion purged.1)) fs
  else fs.
Proof.
  rewrite Next_loadSessionData_stored.
  destruct (purgeExpiredMessages _ _) as [purged removed] eqn:E.
  assert (Hs : session purged = s).
  { replace purged with (purgeExpiredMessages (stored (Next.t_parse clk) s fs)
                           (Next.t_purge clk)).1 by now rewrite E.
    simpl. apply stored_session. }
  cbv zeta. destruct removed; [|reflexivity].
  rewrite Next_saveSessionData_ensure. simpl. now rewrite Hs.
Qed.

End Loading.

(** ** The next route, case by case *)

Section NextCases.
Context {host : Builtins}.

Lemma Next_loadSessionData_session clk s fs :
  session (Next.loadSessionData clk s fs).1 = s.
Proof.
  rewrite Next_loadSessionData_stored. simpl.
  pose proof (stored_session (Next.t_parse clk) s fs) as Hs.
  destruct (negb _); simpl; [|exact Hs].
  destruct (lastVer _); simpl; exact Hs.
Qed.

Lemma Next_GET_cases clk name fs :
  name <> "" ->
  Next.GET clk (Some name) fs =
  let '(sd, fs1) := Next.loadSessionData clk (JStr name) fs in
  match messages sd with
  | firstMessage :: _ =>
      (Next.delivered_reply (msg_id firstMessage) (Next.t_reply clk),
       writeJSON (data_path (JStr name)) (Next.t_save clk)
                 (session_json (ensureLastVersion (shift sd))) fs1)
  | [] => (Next.empty_reply (Next.t_reply clk), fs1)
  end.
Proof.
  intros Hname. unfold Next.GET.
  destruct name as [|c name]; [congruence|].
  pose proof (Next_loadSessionData_session clk (JStr (String c name)) fs) as Hs.
  destruct (Next.loadSessionData clk (JStr (String c name)) fs) as [sd fs1].
  simpl in Hs. destruct (messages sd) as [|m rest] eqn:Hm; [reflexivity|].
  rewrite Next_saveSessionData_ensure. simpl. now rewrite Hs.
Qed.

End NextCases.

Lemma json_of_number_inj a b : json_of_number a = json_of_number b -> a = b.
Proof. destruct a, b; simpl; congruence. Qed.


Section Expiry.
Context {host : Builtins}.




End Expiry.

(** ** Defaults applied when loading *)


Section Defaults.
Context {host : Builtins}.

Lemma stored_unreadable now s fs :
  readJSON (data_path s) fs = None -> stored now s fs = zero_record s.
Proof. intros H. unfold stored, parseSessionData. now rewrite H. Qed.


Lemma purge_zero_record s now :
  purgeExpiredMessages (zero_record s) now = (zero_record s, false).
Proof. reflexivity. Qed.





End Defaults.


(** ** What each write touches *)

Section Frames.
Context {host : Builtins}.


(** The stored record of a session depends on its data file only. *)
Lemma stored_same_file now s (fs fs' : Files) :
  fs' !! data_path s = fs !! data_path s -> stored now s fs' = stored now s fs.
Proof. intros H. unfold stored, parseSessionData, readJSON. now rewrite H. Qed.

Lemma gate_same_file s (fs fs' : Files) :
  fs' !! status_path s = fs !! status_path s -> gate s fs' = gate s fs.
Proof. intros H. unfold gate, readJSON. now rewrite H. Qed.



Lemma Send_POST_accepted clk body fs v t fs' :
  Send.POST clk (Parsed body) fs = (Send.accepted_reply v t, fs') ->
  exists s id rawTtl,
    member body "session" = Some (Some s)
    /\ member body "id" = Some (Some id)
    /\ member body "messageTTL" = Some rawTtl
    /\ truthy s = true /\ truthy id = true
    /\ gate s fs = Some true
    /\ Send.findExistingMessage (Send.loadSessionData clk s fs).1 id (Send.t_find clk)
       = None
    /\ v = Send.nextVersion (Send.loadSessionData clk s fs).1
    /\ fs' = Send.cleanupOldFiles (Send.t_sweep clk)
               (writeJSON (data_path s) (Send.t_save clk)
                  (session_json
                     (Send.enqueue (Send.loadSessionData clk s fs).1 id v
                        (Send.sanitizeTTL rawTtl) (Send.t_push clk)))
                  (Send.loadSessionData clk s fs).2).
Proof.
  intros H.
  destruct body as [| | | | |kvs]; try discriminate.
  destruct (member (JObj kvs) "session") as [[s|]|] eqn:Hs;
    [|unfold Send.POST in H; rewrite Hs in H; simpl in H;
      destruct (assoc "id" kvs); discriminate | discriminate].
  destruct (member (JObj kvs) "id") as [[id|]|] eqn:Hi;
    [|unfold Send.POST in H; rewrite Hs, Hi in H; discriminate | discriminate].
  assert (Ht : member (JObj kvs) "messageTTL" = Some (assoc "messageTTL" kvs))
    by reflexivity.
  set (rawTtl := assoc "messageTTL" kvs) in Ht.
  set (body := JObj kvs) in *.
  destruct (truthy s) eqn:Ts;
    [|unfold Send.POST in H; rewrite Hs, Hi, Ht, Ts in H; discriminate].
  destruct (truthy id) eqn:Ti;
    [|unfold Send.POST in H; rewrite Hs, Hi, Ht, Ts, Ti in H; discriminate].
  rewrite (POST_valid clk body s id rawTtl fs Hs Hi Ht Ts Ti) in H.
  exists s, id, rawTtl. destruct (gate s fs) as [[|]|]; try discriminate.
  destruct (Send.loadSessionData clk s fs) as [sd fs1]. simpl.
  destruct (Send.findExistingMessage sd id (Send.t_find clk)) as [w|]; [discriminate|].
  injection H as Hv _ <-. apply json_of_number_inj in Hv. subst v. auto 10.
Qed.


End Frames.


(** ** Duplicate suppression *)

Lemma NoDup_map_filter {A B} (f : A -> B) (p : A -> bool) (l : list A) :
  NoDup (map f l) -> NoDup (map f (List.filter p l)).
Proof.
  induction l as [|x l IH]; simpl; [constructor|].
  rewrite NoDup_cons. intros (Hx & Hl). destruct (p x); simpl; [|auto].
  apply NoDup_cons. split; [|auto].
  intros Hin. apply Hx. apply list_elem_of_In in Hin. apply list_elem_of_In.
  apply in_map_iff in Hin. destruct Hin as (y & Hy & Hin).
  apply filter_In in Hin. apply in_map_iff. exists y. tauto.
Qed.


Lemma filter_live_later t t' (ms : list SessionMessage) :
  t <= t' ->
  List.filter (live t') (List.filter (live t) ms) = List.filter (live t') ms.
Proof.
  intros Ht. induction ms as [|m ms IH]; simpl; [reflexivity|].
  destruct (live t m) eqn:E; simpl; rewrite IH; [reflexivity|].
  destruct (live t' m) eqn:E'; [|reflexivity].
  apply (live_earlier t t' m Ht) in E'. congruence.
Qed.

(** Uniqueness of live ids survives the passing of time and the purge. *)
Lemma unique_live_later t t' ms :
  t <= t' -> unique_live t ms -> unique_live t' ms.
Proof.
  unfold unique_live. intros Ht H. rewrite <- (filter_live_later t t' ms Ht).
  now apply NoDup_map_filter.
Qed.


Lemma strict_eq_text x i : strict_eq x (JStr i) = true <-> x = JStr i.
Proof.
  destruct x; simpl; try (split; discriminate).
  rewrite String.eqb_eq. split; congruence.
Qed.

(** Appending a message whose id no live message carries keeps the live
    ids distinct. *)
Lemma unique_live_push t T ms new i :
  t <= T -> unique_live t ms -> msg_id new = JStr i ->
  List.find (fun msg => strict_eq (msg_id msg) (JStr i) && live t msg) ms = None ->
  unique_live T (ms ++ [new]).
Proof.
  intros Ht Hu Hid Hfind. apply (unique_live_later t T ms Ht) in Hu.
  unfold unique_live in *. rewrite List.filter_app, map_app. simpl.
  destruct (live T new); simpl; [|now rewrite app_nil_r].
  apply NoDup_app. split; [exact Hu|]. split; [|apply NoDup_singleton].
  intros x Hx Hnew. apply list_elem_of_In in Hx. apply list_elem_of_In in Hnew.
  destruct Hnew as [Hnew|[]]. subst x. rewrite Hid in Hx.
  apply in_map_iff in Hx. destruct Hx as (m & Hm & Hin). apply filter_In in Hin.
  destruct Hin as [Hin Hl].
  pose proof (List.find_none _ _ Hfind m Hin) as Hn. simpl in Hn.
  apply (live_earlier t T m Ht) in Hl. rewrite Hl, andb_true_r in Hn.
  apply strict_eq_text in Hm. congruence.
Qed.

Section Duplicates.
Context {host : Builtins}.


(** An accepting send keeps the live ids distinct as well: the record it
    writes is the loaded one with the new message appended. *)
Lemma accepted_send_keeps_ids_unique clk s i ttl (fs : Files) T :
  let sd := (Send.loadSessionData clk s fs).1 in
  Send.findExistingMessage sd (JStr i) (Send.t_find clk) = None ->
  unique_live (Send.t_find clk) (messages sd) ->
  Send.t_find clk <= T ->
  unique_live T (messages (Send.enqueue sd (JStr i) (Send.nextVersion sd) ttl
                             (Send.t_push clk))).
Proof.
  intros sd Hfind Hu HT. simpl.
  apply (unique_live_push (Send.t_find clk) T _ _ i HT Hu); [reflexivity|].
  unfold Send.findExistingMessage in Hfind.
  destruct (List.find _ (messages sd)); [discriminate | reflexivity].
Qed.

End Duplicates.

(** The sample directory with ["X"] queued is what the first send of
    ["X"] leaves. *)
Example queued_is_reached :
  Send.POST (host := DecimalHost.host) (Sample.send_clock 2000)
            (Parsed (Sample.send_body "operator-1" "X" None)) Sample.activated
  = (Send.accepted_reply (num_of_Z 1) 2003, Sample.queued).
Proof. vm_compute. reflexivity. Qed.


(** ** Written records read back *)

Lemma highestVersion_finite ms : isFinite (highestVersion ms) = true.
Proof.
  unfold highestVersion.
  assert (H : forall acc, isFinite acc = true ->
            isFinite (fold_left (fun max message =>
                        if num_gt (ver message) max then ver message else max)
                        ms acc) = true).
  { induction ms as [|m ms IH]; simpl; [auto|]. intros acc Hacc. apply IH.
    destruct (num_gt (ver m) acc) eqn:E; [|exact Hacc].
    destruct (ver m); [discriminate | reflexivity]. }
  now apply H.
Qed.

Lemma if_number_finite v n : if_number v = Some n -> isFinite n = true.
Proof. destruct v as [[]|]; simpl; try discriminate. now intros [= <-]. Qed.

Lemma if_number_json n : isFinite n = true -> if_number (Some (json_of_number n)) = Some n.
Proof. destruct n; simpl; [discriminate | reflexivity]. Qed.

Section ReadBack.
Context {host : Builtins}.

Lemma parseMessage_None now now' x :
  parseMessage now x = None -> parseMessage now' x = None.
Proof. unfold parseMessage. destruct x; simpl; (discriminate || reflexivity). Qed.

Lemma parseMessage_json now m :
  finite_message m -> parseMessage now (message_json m) = Some (reloaded m).
Proof.
  intros (Hv & Ht & He). unfold parseMessage, message_json, reloaded. simpl.
  destruct (ver m) as [|v]; [discriminate|].
  destruct (timestamp m) as [|t]; [discriminate|].
  destruct (expiresAt m) as [e|]; simpl; [|reflexivity].
  specialize (He e eq_refl). destruct e; [discriminate | reflexivity].
Qed.

Lemma mapM_parseMessage_json now ms :
  Forall finite_message ms ->
  mapM (parseMessage now) (map message_json ms) = Some (map reloaded ms).
Proof.
  intros H. apply mapM_Some.
  induction H as [|m ms Hm _ IH]; simpl; constructor; [|exact IH].
  now apply parseMessage_json.
Qed.

(** Reading back a record that was written with a finite [lastVer] and
    finite messages. *)
Lemma parseSessionData_written now s t sd v (fs : Files) :
  lastVer sd = Some v -> isFinite v = true ->
  Forall finite_message (messages sd) ->
  parseSessionData now s (writeJSON (data_path s) t (session_json sd) fs)
  = Some {| session := s; lastVer := Some v;
            messages := map reloaded (messages sd) |}.
Proof.
  intros Hlv Hv Hms. unfold parseSessionData, readJSON, writeJSON.
  rewrite lookup_insert_eq. simpl. unfold session_json. rewrite Hlv. simpl.
  rewrite (mapM_parseMessage_json now _ Hms). simpl.
  destruct v; [discriminate | reflexivity].
Qed.

Lemma stored_lastVer_finite now s fs v :
  lastVer (stored now s fs) = Some v -> isFinite v = true.
Proof.
  unfold stored, parseSessionData.
  destruct (readJSON (data_path s) fs) as [data|]; simpl; [|now intros [= <-]].
  destruct (member data "messages") as [[[]|]|]; simpl; try now intros [= <-].
  destruct (member data "lastVer") as [lv|]; simpl; [|now intros [= <-]].
  destruct (mapM _ items); simpl; [|now intros [= <-]].
  apply if_number_finite.
Qed.

Lemma ensureLastVersion_finite sd :
  (forall v, lastVer sd = Some v -> isFinite v = true) ->
  exists v, lastVer (ensureLastVersion sd) = Some v /\ isFinite v = true.
Proof.
  intros H. unfold ensureLastVersion. destruct (lastVer sd) as [v|] eqn:E.
  - exists v. rewrite E. auto.
  - eexists. split; [reflexivity|]. apply highestVersion_finite.
Qed.

(** Whether a file parses does not depend on the clock, and neither does
    an empty queue. *)
Lemma stored_empty_any_time now now' s fs :
  messages (stored now s fs) = [] -> stored now' s fs = stored now s fs.
Proof.
  unfold stored, parseSessionData.
  destruct (readJSON (data_path s) fs) as [data|]; simpl; [|reflexivity].
  destruct (member data "messages") as [[[]|]|]; simpl; try reflexivity.
  destruct (member data "lastVer") as [lv|]; simpl; [|reflexivity].
  destruct (mapM (parseMessage now) items) as [ms|] eqn:E; simpl.
  - intros ->. apply length_mapM in E. destruct items; [reflexivity | discriminate].
  - intros _. apply mapM_None in E.
    assert (E' : mapM (parseMessage now') items = None).
    { apply mapM_None. eapply Exists_impl; [exact E|].
      intros x Hx. now apply (parseMessage_None now). }
    now rewrite E'.
Qed.

End ReadBack.

(** ** Polling an empty queue *)

Section EmptyQueue.
Context {host : Builtins}.

Lemma Next_GET_empty clk name fs :
  name <> "" ->
  messages (Next.loadSessionData clk (JStr name) fs).1 = [] ->
  Next.GET clk (Some name) fs
  = (Next.empty_reply (Next.t_reply clk), (Next.loadSessionData clk (JStr name) fs).2).
Proof.
  intros Hname H. rewrite (Next_GET_cases clk name fs Hname).
  destruct (Next.loadSessionData clk (JStr name) fs) as [sd fs1]. simpl in *.
  now rewrite H.
Qed.

(** The reply of a poll depends on the session's data file only. *)
Lemma Next_GET_reply_same_file clk name (fs fs' : Files) :
  fs' !! data_path (JStr name) = fs !! data_path (JStr name) ->
  (Next.GET clk (Some name) fs').1 = (Next.GET clk (Some name) fs).1.
Proof.
  intros H. destruct (String.eqb_spec name "") as [->|Hname]; [reflexivity|].
  rewrite !(Next_GET_cases clk name _ Hname).
  pose proof (Next_load_messages clk (JStr name) fs) as Hm.
  pose proof (Next_load_messages clk (JStr name) fs') as Hm'.
  rewrite (stored_same_file _ _ fs fs' H) in Hm'. rewrite <- Hm in Hm'.
  destruct (Next.loadSessionData clk (JStr name) fs) as [sd fs1].
  destruct (Next.loadSessionData clk (JStr name) fs') as [sd' fs1'].
  simpl in *. rewrite Hm'. destruct (messages sd); reflexivity.
Qed.

(** Once a load has found no live message, the file it leaves reads as
    an empty queue whatever the clock. *)
Lemma Next_load_empty_settled clk s fs now :
  messages (Next.loadSessionData clk s fs).1 = [] ->
  messages (stored now s (Next.loadSessionData clk s fs).2) = [].
Proof.
  rewrite Next_load_messages, Next_load_files. cbv zeta. intros Hempty.
  destruct (purgeExpiredMessages _ _).2 eqn:Eflag.
  - destruct (ensureLastVersion_finite
                (purgeExpiredMessages (stored (Next.t_parse clk) s fs)
                                      (Next.t_purge clk)).1)
      as (v & Hv & Hfin).
    { simpl. apply stored_lastVer_finite. }
    unfold stored.
    rewrite (parseSessionData_written now s _ _ v fs Hv Hfin);
      rewrite ensureLastVersion_messages, purge_messages, Hempty; [reflexivity|].
    constructor.
  - apply purge_flag in Eflag. rewrite purge_messages, Hempty in Eflag.
    rewrite (stored_empty_any_time (Next.t_parse clk) now); auto.
Qed.

Lemma Next_GET_settled clk name fs :
  name <> "" ->
  (forall now, messages (stored now (JStr name) fs) = []) ->
  Next.GET clk (Some name) fs = (Next.empty_reply (Next.t_reply clk), fs).
Proof.
  intros Hname H.
  assert (Hm : messages (Next.loadSessionData clk (JStr name) fs).1 = []).
  { now rewrite Next_load_messages, H. }
  rewrite (Next_GET_empty clk name fs Hname Hm). f_equal.
  rewrite Next_load_files. cbv zeta.
  destruct (purgeExpiredMessages _ _).2 eqn:Eflag; [|reflexivity].
  apply purge_flag_true in Eflag. destruct Eflag as (m & Hin & _).
  rewrite H in Hin. destruct Hin.
Qed.

Lemma poll_settled clks name fs :
  name <> "" ->
  (forall now, messages (stored now (JStr name) fs) = []) ->
  poll clks name fs = (map (fun c => Next.empty_reply (Next.t_reply c)) clks, fs).
Proof.
  intros Hname H. induction clks as [|c clks IH]; [reflexivity|].
  cbn [poll map]. now rewrite (Next_GET_settled c name fs Hname H), IH.
Qed.

(** C8.  When the stored queue holds no message that is live at the time
    of the purge (it is empty, or every message has expired), [next]
    replies with status 200 and [{ok:true, time}], without [id].  The reply
    does not depend on the status file.  Every later call, whatever its
    clock, replies the same way and returns the directory the first call
    left. *)
Theorem next_on_empty_queue_idempotent clk name (fs : Files) :
  name <> "" ->
  (forall m, In m (messages (stored (Next.t_parse clk) (JStr name) fs)) ->
             live (Next.t_purge clk) m = false) ->
  let first := Next.GET clk (Some name) fs in
  first.1 = {| status := 200;
               payload := JObj [("ok", JBool true);
                                ("time", JNum (inject_Z (Next.t_reply clk)))] |}
  /\ (forall f, (Next.GET clk (Some name) (<[status_path (JStr name) := f]> fs)).1
                = first.1)
  /\ (Next.GET clk (Some name) (delete (status_path (JStr name)) fs)).1 = first.1
  /\ (forall clk',
        Next.GET clk' (Some name) first.2
        = ({| status := 200;
              payload := JObj [("ok", JBool true);
                               ("time", JNum (inject_Z (Next.t_reply clk')))] |},
           first.2))
  /\ (forall clks,
        poll clks name first.2
        = (map (fun c => Next.empty_reply (Next.t_reply c)) clks, first.2)).
Proof.
  intros Hname Hdead first.
  assert (Hm : messages (Next.loadSessionData clk (JStr name) fs).1 = []).
  { rewrite Next_load_messages.
    induction (messages (stored (Next.t_parse clk) (JStr name) fs)) as [|m ms IH];
      simpl; [reflexivity|].
    rewrite (Hdead m (or_introl eq_refl)). apply IH. intros x Hx. apply Hdead. now right. }
  assert (Hfirst : first = (Next.empty_reply (Next.t_reply clk),
                            (Next.loadSessionData clk (JStr name) fs).2))
    by (apply Next_GET_empty; assumption).
  assert (Hsettled : forall now, messages (stored now (JStr name) first.2) = []).
  { intros now. rewrite Hfirst. simpl. now apply Next_load_empty_settled. }
  split; [now rewrite Hfirst|].
  split.
  { intros f. apply Next_GET_reply_same_file. rewrite lookup_insert_ne; [reflexivity|].
    intros E. symmetry in E. now apply data_status_paths in E. }
  split.
  { apply Next_GET_reply_same_file. rewrite lookup_delete_ne; [reflexivity|].
    intros E. symmetry in E. now apply data_status_paths in E. }
  split.
  - intros clk'. now apply Next_GET_settled.
  - intros clks. now apply poll_settled.
Qed.

End EmptyQueue.

Lemma next_on_empty_queue_idempotent_witness :
  let first := Next.GET (host := DecimalHost.host) (Sample.next_clock 400000)
                 (Some "operator-1") Sample.queued in
  first.1 = Next.empty_reply 400002
  /\ Next.GET (host := DecimalHost.host) (Sample.next_clock 400010)
       (Some "operator-1") first.2
     = (Next.empty_reply 400012, first.2).
Proof.
  destruct (next_on_empty_queue_idempotent (host := DecimalHost.host)
              (Sample.next_clock 400000) "operator-1" Sample.queued)
    as (Hfirst & _ & _ & Hagain & _);
    [discriminate | intros m [<-|[]]; reflexivity |].
  split; [exact Hfirst | apply Hagain].
Defined.

(** ** The viewer registry *)

Lemma filterE_total {A} (p : A -> option bool) (l : list A) :
  Forall (fun x => is_Some (p x)) l ->
  Viewers.filterE p l = Some (List.filter (passes p) l).
Proof.
  induction 1 as [|x l [b Hb] _ IH]; simpl; [reflexivity|].
  unfold passes at 1. rewrite Hb, IH. simpl. reflexivity.
Qed.


Lemma member_defined v k : v <> JNull -> is_Some (member v k).
Proof. destruct v; simpl; eauto; congruence. Qed.

Lemma Forall_filter_sub {A} (P : A -> Prop) (p : A -> bool) (l : list A) :
  Forall P l -> Forall P (List.filter p l).
Proof.
  induction 1 as [|x l Hx _ IH]; simpl; [constructor|].
  destruct (p x); [constructor|]; assumption.
Qed.

Section Registry.
Context {host : Builtins}.

Lemma fresh_defined now v : v <> JNull -> is_Some (Viewers.fresh now v).
Proof.
  intros H. unfold Viewers.fresh.
  destruct (member_defined v "timestamp" H) as [t ->]. simpl. eauto.
Qed.

Lemma other_device_defined d v : v <> JNull -> is_Some (Viewers.other_device d v).
Proof.
  intros H. unfold Viewers.other_device.
  destruct (member_defined v "deviceId" H) as [t ->]. simpl. eauto.
Qed.

Lemma operator_is_defined n v : v <> JNull -> is_Some (Viewers.operator_is n v).
Proof.
  intros H. unfold Viewers.operator_is.
  destruct (member_defined v "operatorId" H) as [t ->]. simpl. eauto.
Qed.



(** A read of the registry, under the same condition on the file. *)
Lemma Viewers_GET_valid clk operatorId fs items :
  operatorId <> "" ->
  Viewers.readViewers fs = JArr items ->
  Forall (fun v => v <> JNull) items ->
  Viewers.GET clk (Some operatorId) fs =
  ({| status := 200;
      payload := JObj [("ok", JBool true);
                       ("viewers",
                        JArr (List.filter
                                (fun v =>
                                   passes (Viewers.operator_is
                                             (parseInt (JStr operatorId))) v
                                   && passes (Viewers.fresh (Viewers.t_now clk)) v)
                                items))] |}, fs).
Proof.
  intros Hq Hread Hitems. unfold Viewers.GET.
  destruct operatorId as [|c q]; [congruence|]. rewrite Hread. simpl.
  rewrite filterE_total.
  2:{ eapply Forall_impl; [exact Hitems|]. intros v Hv.
      destruct (operator_is_defined (parseInt (JStr (String c q))) v Hv) as [b ->].
      simpl. destruct b; [now apply fresh_defined | eauto]. }
  unfold Viewers.reply. do 7 f_equal.
  apply List.filter_ext. intros v. unfold passes.
  destruct (Viewers.operator_is _ v) as [[|]|]; reflexivity.
Qed.

End Registry.

Section RegistryClaims.
Context {host : Builtins}.





End RegistryClaims.


(** ** Versions along a history *)





Section TrackedQueue.
Context {host : Builtins}.



(** Every message of a stored record has a text for [id], so reading it
    back once written gives the same message. *)
Lemma parseMessage_text now x m :
  parseMessage now x = Some m -> reloaded m = m.
Proof.
  unfold parseMessage.
  destruct (member x "id") as [i|]; simpl; [|discriminate].
  destruct (member x "ver") as [v|]; simpl; [|discriminate].
  destruct (member x "timestamp") as [t|]; simpl; [|discriminate].
  destruct (member x "expiresAt") as [e|]; simpl; [|discriminate].
  intros [= <-]. reflexivity.
Qed.

Lemma stored_reloaded now s fs :
  map reloaded (messages (stored now s fs)) = messages (stored now s fs).
Proof.
  unfold stored, parseSessionData.
  destruct (readJSON (data_path s) fs) as [data|]; simpl; [|reflexivity].
  destruct (member data "messages") as [[[]|]|]; simpl; try reflexivity.
  destruct (member data "lastVer") as [lv|]; simpl; [|reflexivity].
  destruct (mapM (parseMessage now) items) as [ms|] eqn:E; simpl; [|reflexivity].
  apply mapM_Some in E. induction E as [|x m items ms Hx _ IH]; simpl; [reflexivity|].
  now rewrite (parseMessage_text now x m Hx), IH.
Qed.

Lemma reloaded_sub (p : SessionMessage -> bool) ms :
  map reloaded ms = ms -> map reloaded (List.filter p ms) = List.filter p ms.
Proof.
  induction ms as [|m rest IH]; simpl; [reflexivity|].
  intros [= Hm Hrest]. destruct (p m); simpl; [rewrite Hm|]; rewrite IH; auto.
Qed.

(** A session without a readable file is tracked from version 0. *)
Lemma tracked_fresh name lo (fs : Files) :
  (lo <= 0)%Q -> readJSON (data_path (JStr name)) fs = None -> tracked name lo 0 fs.
Proof.
  intros Hlo H now. rewrite (stored_unreadable now _ fs H). simpl.
  split; [reflexivity|]. split; [constructor | exact Hlo].
Qed.



End TrackedQueue.

Section TrackedSteps.
Context {host : Builtins}.







End TrackedSteps.

Section TrackedHistory.
Context {host : Builtins}.

Lemma truthy_text name : name <> "" -> truthy (JStr name) = true.
Proof. intros H. simpl. apply negb_true_iff. now apply String.eqb_neq. Qed.





End TrackedHistory.

(** ** Histories *)






Section HistoryClaims.
Context {host : Builtins}.



Lemma Next_load_lastVer_finite clk s fs v :
  lastVer (Next.loadSessionData clk s fs).1 = Some v -> isFinite v = true.
Proof.
  rewrite Next_loadSessionData_stored. simpl.
  destruct (negb _); simpl; [|apply stored_lastVer_finite].
  destruct (lastVer (stored (Next.t_parse clk) s fs)) as [w|] eqn:E; simpl.
  - intros [= <-]. eapply stored_lastVer_finite; eauto.
  - intros [= <-]. apply highestVersion_finite.
Qed.

(** A poll whose loaded queue is not empty hands out its head and leaves
    the rest in the file. *)
Lemma Next_GET_head clk name (fs : Files) m rest :
  name <> "" ->
  Forall finite_message (messages (stored (Next.t_parse clk) (JStr name) fs)) ->
  List.filter (live (Next.t_purge clk))
              (messages (stored (Next.t_parse clk) (JStr name) fs)) = m :: rest ->
  exists fs',
    Next.GET clk (Some name) fs
    = (Next.delivered_reply (msg_id m) (Next.t_reply clk), fs')
    /\ forall now, messages (stored now (JStr name) fs') = rest.
Proof.
  intros Hname Hfin Hlive.
  assert (Hre : map reloaded (m :: rest) = m :: rest).
  { rewrite <- Hlive. apply reloaded_sub, stored_reloaded. }
  assert (Hfin' : Forall finite_message (m :: rest)).
  { rewrite <- Hlive. now apply Forall_filter_sub. }
  rewrite <- Next_load_messages in Hlive.
  pose proof (Next_load_lastVer_finite clk (JStr name) fs) as Hlv.
  rewrite (Next_GET_cases clk name fs Hname).
  destruct (Next.loadSessionData clk (JStr name) fs) as [sd fs1]. simpl in *.
  rewrite Hlive. eexists. split; [reflexivity|]. intros now.
  destruct (ensureLastVersion_finite (shift sd)) as (v & Hv & Hvfin); [exact Hlv|].
  unfold stored.
  rewrite (parseSessionData_written now (JStr name) _ _ v fs1 Hv Hvfin);
    rewrite ensureLastVersion_messages; simpl; rewrite Hlive; simpl.
  - simpl in Hre. now injection Hre.
  - now inversion Hfin'.
Qed.


End HistoryClaims.

(** The sample history: both sends are accepted with versions 1 and 2,
    the polls hand out ["A"], then ["B"], then nothing, and the last send
    gets version 3 although the queue is empty by then. *)
Example history_replies :
  (serve_all (host := DecimalHost.host) "operator-1" Sample.history Sample.activated).1
  = [Send.accepted_reply (num_of_Z 1) 2003;
     Send.accepted_reply (num_of_Z 2) 3003;
     Next.delivered_reply (JStr "A") 4002;
     Next.delivered_reply (JStr "B") 5002;
     Next.empty_reply 6002;
     Send.accepted_reply (num_of_Z 3) 7003].
Proof. vm_compute. reflexivity. Qed.





(** ** Further closed instances *)




(** * Further properties of the routes *)

(** ** Validation in the send route *)

Section SendValidation.
Context {host : Builtins}.

(** X1.  A send whose body is not an object, or whose [session] or [id]
    is missing or falsy, is answered with status 400 before the gate is
    looked at, and the directory is returned as it was. *)
Theorem send_missing_fields_rejected clk body (fs : Files) :
  body <> JNull ->
  (forall s, member body "session" = Some (Some s) -> truthy s = false)
  \/ (forall i, member body "id" = Some (Some i) -> truthy i = false) ->
  Send.POST clk (Parsed body) fs
  = ({| status := 400;
        payload := JObj [("ok", JBool false);
                         ("error", JStr "Missing session or id")] |}, fs).
Proof.
  intros Hnull H. unfold Send.POST.
  destruct (member body "session") as [[s|]|] eqn:Hs;
    [| |destruct body; try discriminate; congruence].
  - destruct (member body "id") as [[i|]|] eqn:Hi;
      [| |destruct body; try discriminate; congruence].
    + destruct (member body "messageTTL") as [ttl|] eqn:Ht;
        [|destruct body; try discriminate; congruence].
      destruct H as [H|H].
      * now rewrite (H s eq_refl).
      * rewrite (H i eq_refl). now rewrite orb_true_r.
    + destruct (member body "messageTTL") as [ttl|] eqn:Ht;
        [reflexivity | destruct body; try discriminate; congruence].
  - destruct (member body "id") as [[i|]|] eqn:Hi;
      [| |destruct body; try discriminate; congruence];
      (destruct (member body "messageTTL") as [ttl|] eqn:Ht;
        [reflexivity | destruct body; try discriminate; congruence]).
Qed.

End SendValidation.

Lemma send_missing_fields_rejected_witness :
  Send.POST (host := DecimalHost.host) (Sample.send_clock 2000)
            (Parsed (JObj [("session", JStr "operator-1"); ("id", JStr "")]))
            Sample.activated
  = (Send.missing_fields, Sample.activated).
Proof.
  apply (send_missing_fields_rejected (host := DecimalHost.host));
    [discriminate | right; intros i [= <-]; reflexivity].
Defined.

(** ** The time to live, continued *)

Lemma Math_round_integer z : Math_round (inject_Z z) = z.
Proof.
  pose proof (Math_round_bounds z z (inject_Z z) (Qle_refl _) (Qle_refl _)). lia.
Qed.

Lemma Math_round_monotone p q : (p <= q)%Q -> Math_round p <= Math_round q.
Proof. intros H. unfold Math_round. apply Qfloor_resp_le. lra. Qed.

Section TimeToLiveMore.
Context {host : Builtins}.

(** X2.  [sanitizeTTL] is idempotent -- a ttl it returned is returned
    unchanged when sent again -- and monotone on finite numbers. *)
Theorem sanitizeTTL_idempotent_monotone :
  (forall rawTtl,
     Send.sanitizeTTL (Some (JNum (inject_Z (Send.sanitizeTTL rawTtl))))
     = Send.sanitizeTTL rawTtl)
  /\ (forall raw1 raw2 q1 q2,
        Number_ raw1 = Fin q1 -> Number_ raw2 = Fin q2 -> (q1 <= q2)%Q ->
        Send.sanitizeTTL raw1 <= Send.sanitizeTTL raw2).
Proof.
  split.
  - intros rawTtl.
    destruct (sanitizeTTL_cases rawTtl) as ([Hlo Hhi] & _).
    destruct (sanitizeTTL_cases (Some (JNum (inject_Z (Send.sanitizeTTL rawTtl)))))
      as (_ & _ & Hfin).
    destruct (Hfin _ eq_refl) as (_ & _ & Hmid).
    rewrite Hmid; [apply Math_round_integer | |]; now rewrite <- Zle_Qle.
  - intros raw1 raw2 q1 q2 H1 H2 Hle.
    destruct (sanitizeTTL_cases raw1) as (Hb1 & _ & Hf1).
    destruct (sanitizeTTL_cases raw2) as (Hb2 & _ & Hf2).
    destruct (Hf1 q1 H1) as (Hlo1 & Hhi1 & Hmid1).
    destruct (Hf2 q2 H2) as (Hlo2 & Hhi2 & Hmid2).
    destruct (Qlt_le_dec q1 (inject_Z MIN_MESSAGE_TTL)) as [A|A].
    { rewrite (Hlo1 A). apply Hb2. }
    destruct (Qlt_le_dec (inject_Z MAX_MESSAGE_TTL) q2) as [B|B].
    { rewrite (Hhi2 B). apply Hb1. }
    rewrite Hmid1, Hmid2; try lra. now apply Math_round_monotone.
Qed.

End TimeToLiveMore.

Lemma sanitizeTTL_idempotent_monotone_witness :
  Send.sanitizeTTL (host := DecimalHost.host)
    (Some (JNum (inject_Z (Send.sanitizeTTL (host := DecimalHost.host)
                             (Some (JStr "90000"))))))
  = 90000.
Proof.
  rewrite (proj1 (sanitizeTTL_idempotent_monotone (host := DecimalHost.host))).
  reflexivity.
Defined.

(** ** The highest version *)

Lemma highest_fold_spec ms acc :
  isFinite acc = true ->
  let h := fold_left (fun max message =>
                        if num_gt (ver message) max then ver message else max)
                     ms acc in
  num_le acc h
  /\ (forall m, In m ms -> isFinite (ver m) = true -> num_le (ver m) h)
  /\ (h = acc \/ exists m, In m ms /\ ver m = h).
Proof.
  revert acc. induction ms as [|m ms IH]; intros acc Hacc; simpl.
  - destruct acc as [|a]; [discriminate|]. simpl.
    split; [apply Qle_refl|]. split; [tauto | now left].
  - destruct (num_gt (ver m) acc) eqn:E.
    + assert (Hm : isFinite (ver m) = true) by (destruct (ver m); [discriminate | reflexivity]).
      destruct (IH (ver m) Hm) as (Hle & Hall & Hwit).
      apply num_gt_less in E.
      split; [|split].
      * destruct acc as [|a], (ver m) as [|v]; try contradiction.
        destruct (fold_left _ ms (Fin v)) as [|h]; [contradiction|]. simpl in *. lra.
      * intros x [Hx|Hx] Hfin; [subst x|auto].
        destruct (ver m) as [|v]; [discriminate|].
        destruct (fold_left _ ms (Fin v)); [contradiction | exact Hle].
      * right. destruct Hwit as [->|(x & Hx & Hh)]; eauto.
    + destruct (IH acc Hacc) as (Hle & Hall & Hwit).
      split; [exact Hle|]. split.
      * intros x [Hx|Hx] Hfin; [subst x|auto].
        apply (num_gt_false _ _ Hfin Hacc) in E.
        destruct (ver m) as [|v], acc as [|a]; try contradiction.
        destruct (fold_left _ ms (Fin a)) as [|h]; [contradiction|]. simpl in *. lra.
      * destruct Hwit as [->|(x & Hx & Hh)]; eauto.
Qed.

(** X3.  The version [ensureLastVersion] gives to a record without
    [lastVer] is at least 0 and at least every finite version of the
    queue, and it is 0 or the version of one of the messages; a record that
    has a [lastVer] is left as it is, whatever its queue holds. *)
Theorem ensureLastVersion_highest sd :
  (forall v, lastVer sd = Some v -> ensureLastVersion sd = sd)
  /\ (lastVer sd = None ->
      exists h,
        lastVer (ensureLastVersion sd) = Some h
        /\ num_le (num_of_Z 0) h
        /\ (forall m, In m (messages sd) -> isFinite (ver m) = true -> num_le (ver m) h)
        /\ (h = num_of_Z 0 \/ exists m, In m (messages sd) /\ ver m = h))
  /\ messages (ensureLastVersion sd) = messages sd
  /\ session (ensureLastVersion sd) = session sd.
Proof.
  split; [intros v H; unfold ensureLastVersion; now rewrite H|].
  split.
  - intros H. unfold ensureLastVersion. rewrite H. simpl.
    exists (highestVersion (messages sd)). split; [reflexivity|].
    apply (highest_fold_spec (messages sd) (num_of_Z 0) eq_refl).
  - split; unfold ensureLastVersion; destruct (lastVer sd); reflexivity.
Qed.

Lemma ensureLastVersion_highest_witness :
  exists h,
    lastVer (ensureLastVersion
               {| session := JStr "operator-1"; lastVer := None;
                  messages := [Sample.message_X] |}) = Some h
    /\ num_le (num_of_Z 1) h.
Proof.
  destruct (ensureLastVersion_highest
              {| session := JStr "operator-1"; lastVer := None;
                 messages := [Sample.message_X] |})
    as (_ & Hnone & _).
  destruct (Hnone eq_refl) as (h & Hh & _ & Hall & _).
  exists h. split; [exact Hh|]. apply (Hall Sample.message_X); [now left | reflexivity].
Defined.

(** ** The sweep, continued *)

Lemma cleanupOldFiles_twice now (fs : Files) :
  Send.cleanupOldFiles now (Send.cleanupOldFiles now fs) = Send.cleanupOldFiles now fs.
Proof.
  apply map_eq. intros p. rewrite !cleanupOldFiles_lookup.
  destruct (fs !! p) as [f|]; [|reflexivity].
  destruct (Send.swept now p f) eqn:E; [reflexivity | now rewrite E].
Qed.

(** X4.  The sweep only deletes: what it leaves is a part of the
    directory.  It deletes a file exactly when its name ends in [.json]
    and it was last written more than 24 hours before; a file written
    exactly 24 hours before stays, as does any file with another ending.
    Sweeping again at the same time changes nothing, and whatever a sweep
    deletes, a later sweep of the same directory deletes as well. *)
Theorem cleanupOldFiles_deletes_old_json now (fs : Files) :
  Send.cleanupOldFiles now fs ⊆ fs
  /\ (forall p f, fs !! p = Some f ->
        (Send.cleanupOldFiles now fs !! p = None
         <-> endsWith ".json" p = true /\ 24 * 60 * 60 * 1000 < now - mtimeMs f)
        /\ (Send.cleanupOldFiles now fs !! p = Some f
            <-> endsWith ".json" p = false \/ now - mtimeMs f <= 24 * 60 * 60 * 1000))
  /\ Send.cleanupOldFiles now (Send.cleanupOldFiles now fs) = Send.cleanupOldFiles now fs
  /\ (forall later p, now <= later ->
        fs !! p <> None -> Send.cleanupOldFiles now fs !! p = None ->
        Send.cleanupOldFiles later fs !! p = None).
Proof.
  split; [apply map_filter_subseteq|]. split; [|split; [apply cleanupOldFiles_twice|]].
  - intros p f Hp. rewrite cleanupOldFiles_lookup, Hp. unfold Send.swept, Send.maxAge.
    destruct (endsWith ".json" p); simpl;
      destruct (Z.ltb_spec (24 * 60 * 60 * 1000) (now - mtimeMs f)); simpl;
      intuition (discriminate || lia || auto).
  - intros later p Hlater Hsome. rewrite !cleanupOldFiles_lookup.
    destruct (fs !! p) as [f|]; [|congruence]. unfold Send.swept.
    destruct (endsWith ".json" p); simpl; [|discriminate].
    destruct (Z.ltb_spec Send.maxAge (now - mtimeMs f)); [|discriminate].
    intros _. destruct (Z.ltb_spec Send.maxAge (later - mtimeMs f)); [reflexivity | lia].
Qed.

Lemma cleanupOldFiles_deletes_old_json_witness :
  Send.cleanupOldFiles Sample.next_day Sample.activated !! "operator-1-status.json"
  = None.
Proof.
  destruct (cleanupOldFiles_deletes_old_json Sample.next_day Sample.activated)
    as (_ & Hwhich & _).
  apply (Hwhich "operator-1-status.json" (Sample.status_file "operator-1" true 1000));
    [reflexivity|].
  split; [reflexivity | simpl; unfold Sample.next_day; lia].
Defined.

(** ** What an accepted send leaves in the file *)




Section AcceptedRecord.
Context {host : Builtins}.




Lemma send_request_fields name id messageTTL :
  exists body,
    send_request name id messageTTL = Parsed body
    /\ member body "session" = Some (Some (JStr name))
    /\ member body "id" = Some (Some id)
    /\ member body "messageTTL" = Some messageTTL.
Proof.
  eexists. split; [reflexivity|]. split; [reflexivity|]. split; [reflexivity|].
  destruct messageTTL; reflexivity.
Qed.




End AcceptedRecord.

(** ** Sends and polls composed *)


Section Composition.
Context {host : Builtins}.






End Composition.






(** ** Polls *)

Lemma filter_all {A} (p : A -> bool) (l : list A) :
  (forall x, In x l -> p x = true) -> List.filter p l = l.
Proof.
  induction l as [|x l IH]; simpl; [reflexivity|]. intros H.
  rewrite (H x (or_introl eq_refl)). f_equal. apply IH. intros y Hy. apply H. now right.
Qed.

Section Polls.
Context {host : Builtins}.


(** X11.  Successive polls drain the queue in its order: when the queue
    holds finite messages that are all live at every poll, the polls hand
    out the [id]s of the messages one by one from the head, the polls that
    come after the last message get the empty reply, and the file is left
    with the messages that were not handed out. *)
Theorem polls_drain_queue clks name (fs : Files) ms :
  name <> "" ->
  (forall now, messages (stored now (JStr name) fs) = ms) ->
  Forall finite_message ms ->
  (forall clk m, In clk clks -> In m ms -> live (Next.t_purge clk) m = true) ->
  let polled := poll clks name fs in
  polled.1
  = zip_with (fun clk m => Next.delivered_reply (msg_id m) (Next.t_reply clk)) clks ms
    ++ map (fun clk => Next.empty_reply (Next.t_reply clk)) (drop (length ms) clks)
  /\ forall now, messages (stored now (JStr name) polled.2) = drop (length clks) ms.
Proof.
  intros Hname. revert fs ms.
  induction clks as [|clk rest IH]; intros fs ms Hst Hfin Hlive polled.
  - subst polled. simpl. rewrite drop_nil, drop_0. split; [reflexivity | exact Hst].
  - destruct ms as [|m ms'].
    + subst polled. rewrite (poll_settled (clk :: rest) name fs Hname Hst).
      split; [reflexivity | exact Hst].
    + destruct (Next_GET_head clk name fs m ms' Hname) as (fs' & Hget & Hrest).
      * now rewrite Hst.
      * rewrite Hst. apply filter_all. intros x Hx. apply Hlive; [now left | exact Hx].
      * inversion Hfin as [|? ? Hm Hms']; subst.
        destruct (IH fs' ms' Hrest Hms') as [Hreplies Hleft].
        { intros c x Hc Hx. apply Hlive; now right. }
        subst polled. cbn [poll]. rewrite Hget.
        destruct (poll rest name fs') as [replies fs''].
        cbn [fst snd] in *. rewrite Hreplies. split; [reflexivity | exact Hleft].
Qed.

End Polls.


Lemma polls_drain_queue_witness :
  (poll (host := DecimalHost.host) [Sample.next_clock 4000; Sample.next_clock 5000]
        "operator-1" Sample.queued).1
  = [Next.delivered_reply (JStr "X") 4002; Next.empty_reply 5002].
Proof.
  destruct (polls_drain_queue (host := DecimalHost.host)
              [Sample.next_clock 4000; Sample.next_clock 5000] "operator-1"
              Sample.queued [Sample.message_X]) as [H _];
    [discriminate | reflexivity | | | exact H].
  - repeat constructor. intros e [= <-]. reflexivity.
  - intros clk m [<-|[<-|[]]] [<-|[]]; reflexivity.
Defined.

(** ** The status route *)

Section StatusRoute.
Context {host : Builtins}.

Lemma Status_GET_cases clk name (fs : Files) :
  name <> "" ->
  Status.GET clk (Some name) fs
  = (match readJSON (status_path (JStr name)) fs with
     | None =>
         {| status := 200;
            payload := JObj [("ok", JBool true); ("active", JBool false);
                             ("lastUpdate", JNum (inject_Z (Status.t_now clk)))] |}
     | Some JNull => Status.server_error
     | Some parsed =>
         Status.reply 200 [("ok", Some (JBool true));
                           ("active", default None (member parsed "active"));
                           ("lastUpdate", default None (member parsed "lastUpdate"))]
     end, fs).
Proof.
  intros Hname. destruct name as [|c name]; [congruence|].
  unfold Status.GET, Status.loadSessionStatus.
  destruct (readJSON _ fs) as [[]|]; reflexivity.
Qed.


(** X13.  A status read never writes: a session without a readable status
    file is reported inactive, with the time of the read as [lastUpdate],
    and no file is created for it.  What the read reports is what the send
    route enforces: the gate is the truthiness of the reported [active],
    and the read fails with 500 exactly when the gate cannot be read. *)
Theorem status_read_reports_the_gate clk name (fs : Files) :
  name <> "" ->
  let read := Status.GET clk (Some name) fs in
  read.2 = fs
  /\ (readJSON (status_path (JStr name)) fs = None ->
      read.1 = {| status := 200;
                  payload := JObj [("ok", JBool true); ("active", JBool false);
                                   ("lastUpdate", JNum (inject_Z (Status.t_now clk)))] |}
      /\ gate (JStr name) fs = Some false)
  /\ (forall fields a,
        payload read.1 = JObj fields -> assoc "active" fields = Some a ->
        gate (JStr name) fs = Some (truthy a))
  /\ (status read.1 = 500 <-> gate (JStr name) fs = None).
Proof.
  intros Hname read. subst read. rewrite (Status_GET_cases clk name fs Hname).
  unfold gate. cbn [fst snd].
  destruct (readJSON (status_path (JStr name)) fs) as [parsed|].
  - split; [reflexivity|]. split; [discriminate|].
    destruct parsed as [ |b|q|t|items|kvs]; simpl;
      try (split; [intros fields a [= <-]; discriminate | split; discriminate]).
    + split; [intros fields a [= <-]; discriminate|]. split; reflexivity.
    + split; [|split; discriminate].
      intros fields a [= <-].
      destruct (assoc "active" kvs) as [x|]; simpl.
      * intros [= <-]. reflexivity.
      * destruct (assoc "lastUpdate" kvs); discriminate.
  - split; [reflexivity|]. split; [split; reflexivity|].
    split; [|split; discriminate].
    intros fields a [= <-] [= <-]. reflexivity.
Qed.

(** X14.  A status update is only accepted with a truthy [session] and an
    [active] that is a boolean: anything else for [active] -- a text, a
    number, nothing -- is answered 400 and writes nothing. *)
Theorem status_update_requires_boolean clk body (fs : Files) :
  body <> JNull ->
  (forall s, member body "session" = Some (Some s) -> truthy s = false)
  \/ (forall b, member body "active" <> Some (Some (JBool b))) ->
  Status.POST clk (Parsed body) fs
  = ({| status := 400;
        payload := JObj [("ok", JBool false);
                         ("error", JStr "Missing session or active state")] |}, fs).
Proof.
  intros Hnull H. unfold Status.POST.
  destruct (member body "session") as [[s|]|] eqn:Hs;
    [| |destruct body; try discriminate; congruence];
    (destruct (member body "active") as [[a|]|] eqn:Ha;
      [| |destruct body; try discriminate; congruence]); try reflexivity.
  destruct a as [ |b| | | | ]; try reflexivity.
  destruct H as [H|H]; [now rewrite (H s eq_refl) | now destruct (H b)].
Qed.

End StatusRoute.


Lemma status_read_reports_the_gate_witness :
  (Status.GET (host := DecimalHost.host) (Sample.status_clock 3000) (Some "operator-2")
     Sample.activated).1
  = {| status := 200;
       payload := JObj [("ok", JBool true); ("active", JBool false);
                        ("lastUpdate", JNum 3000)] |}
  /\ gate (host := DecimalHost.host) (JStr "operator-1") Sample.text_flag = Some true.
Proof.
  split.
  - destruct (status_read_reports_the_gate (host := DecimalHost.host)
                (Sample.status_clock 3000) "operator-2" Sample.activated)
      as (_ & Habsent & _); [discriminate|].
    destruct Habsent as [H _]; [reflexivity | exact H].
  - destruct (status_read_reports_the_gate (host := DecimalHost.host)
                (Sample.status_clock 3000) "operator-1" Sample.text_flag)
      as (_ & _ & Hreport & _); [discriminate|].
    apply (Hreport [("ok", JBool true); ("active", JStr "false");
                    ("lastUpdate", JNum 1000)] (JStr "false")); reflexivity.
Defined.

Lemma status_update_requires_boolean_witness :
  Status.POST (host := DecimalHost.host) (Sample.status_clock 2000)
    (Parsed (JObj [("session", JStr "operator-1"); ("active", JStr "true")]))
    Sample.activated
  = ({| status := 400;
        payload := JObj [("ok", JBool false);
                         ("error", JStr "Missing session or active state")] |},
     Sample.activated).
Proof.
  apply (status_update_requires_boolean (host := DecimalHost.host));
    [discriminate | right; intros b; discriminate].
Defined.

(** ** The viewer registry, continued *)

Lemma filterE_throws {A} (p : A -> option bool) (l : list A) x :
  In x l -> p x = None -> Viewers.filterE p l = None.
Proof.
  intros Hin Hx. induction l as [|y l IH]; [destruct Hin|]. simpl.
  destruct Hin as [->|Hin].
  - now rewrite Hx.
  - rewrite (IH Hin). now destruct (p y).
Qed.

Section RegistryMore.
Context {host : Builtins}.

Lemma other_device_device_is d v :
  v <> JNull -> passes (Viewers.other_device d) v = negb (device_is d v).
Proof.
  intros Hv. unfold passes, Viewers.other_device, device_is.
  destruct v; try congruence; simpl; try reflexivity.
  now destruct (assoc "deviceId" fields).
Qed.

Lemma readViewers_written t l (fs : Files) :
  Viewers.readViewers (writeJSON Viewers.viewersFile t (JArr l) fs) = JArr l.
Proof. unfold Viewers.readViewers, readJSON, writeJSON. now rewrite lookup_insert_eq. Qed.

Lemma Viewers_DELETE_valid clk d (fs : Files) items :
  d <> "" ->
  Viewers.readViewers fs = JArr items ->
  Forall (fun v => v <> JNull) items ->
  Viewers.DELETE clk (Some d) fs
  = ({| status := 200; payload := JObj [("ok", JBool true)] |},
     writeJSON Viewers.viewersFile (Viewers.t_write clk)
       (JArr (List.filter (fun v => negb (device_is (JStr d) v)) items)) fs).
Proof.
  intros Hd Hread Hitems. unfold Viewers.DELETE.
  destruct d as [|c d]; [congruence|]. rewrite Hread. simpl.
  rewrite filterE_total.
  2:{ eapply Forall_impl; [exact Hitems|]. intros v Hv. now apply other_device_defined. }
  rewrite (List.filter_ext_in _ (fun v => negb (device_is (JStr (String c d)) v)));
    [reflexivity|].
  intros v Hv. apply other_device_device_is.
  rewrite Forall_forall in Hitems. apply Hitems. now apply list_elem_of_In.
Qed.


(** X15.  Unregistering a device removes every entry of the device from
    the registry and keeps all other entries, stale ones included, in
    their order; no other file is touched.  Unregistering again changes
    nothing in what the registry holds, and no later read lists the
    device. *)
Theorem viewer_unregistered clk d (fs : Files) items :
  d <> "" ->
  Viewers.readViewers fs = JArr items ->
  Forall (fun v => v <> JNull) items ->
  let kept := List.filter (fun v => negb (device_is (JStr d) v)) items in
  let removed := Viewers.DELETE clk (Some d) fs in
  removed.1 = {| status := 200; payload := JObj [("ok", JBool true)] |}
  /\ Viewers.readViewers removed.2 = JArr kept
  /\ (forall p, p <> Viewers.viewersFile -> removed.2 !! p = fs !! p)
  /\ (forall clk',
        let again := Viewers.DELETE clk' (Some d) removed.2 in
        again.1 = removed.1 /\ Viewers.readViewers again.2 = JArr kept)
  /\ (forall clk' q, q <> "" ->
        exists result,
          Viewers.GET clk' (Some q) removed.2
          = ({| status := 200;
                payload := JObj [("ok", JBool true); ("viewers", JArr result)] |},
             removed.2)
          /\ forall v, In v result -> In v items /\ device_is (JStr d) v = false).
Proof.
  intros Hd Hread Hitems kept removed.
  assert (Hkept : Forall (fun v => v <> JNull) kept) by now apply Forall_filter_sub.
  subst removed. rewrite (Viewers_DELETE_valid clk d fs items Hd Hread Hitems).
  fold kept. cbn [fst snd].
  split; [reflexivity|]. split; [apply readViewers_written|]. split.
  { intros p Hp. unfold writeJSON. now rewrite lookup_insert_ne. }
  split.
  - intros clk'. cbv zeta.
    rewrite (Viewers_DELETE_valid clk' d _ kept Hd (readViewers_written _ _ _) Hkept).
    cbn [fst snd]. split; [reflexivity|]. rewrite readViewers_written. f_equal.
    apply filter_all. intros v Hv. subst kept. apply filter_In in Hv. tauto.
  - intros clk' q Hq. eexists. split.
    + apply (Viewers_GET_valid clk' q _ kept Hq (readViewers_written _ _ _) Hkept).
    + intros v Hv. apply filter_In in Hv. destruct Hv as [Hv _].
      subst kept. apply filter_In in Hv. destruct Hv as [Hv Hdev].
      split; [exact Hv | now apply negb_true_iff].
Qed.


(** X17.  A registration needs all three fields truthy: without one of
    them, or with an empty text or the number 0 for one of them -- an
    operator whose id is 0 is such a case -- it is answered 400 and the
    registry is not written. *)
Theorem viewer_registration_requires_fields clk body (fs : Files) :
  body <> JNull ->
  (exists k, In k ["deviceId"; "operatorName"; "operatorId"]
             /\ forall x, member body k = Some (Some x) -> truthy x = false) ->
  Viewers.POST clk (Parsed body) fs
  = ({| status := 400;
        payload :=
          JObj [("ok", JBool false);
                ("error",
                 JStr "Missing required fields: deviceId, operatorName, operatorId")] |},
     fs).
Proof.
  intros Hnull (k & Hk & Hfalsy). unfold Viewers.POST.
  destruct (member_defined body "deviceId" Hnull) as [a Ha].
  destruct (member_defined body "operatorName" Hnull) as [b Hb].
  destruct (member_defined body "operatorId" Hnull) as [c Hc].
  rewrite Ha, Hb, Hc.
  destruct a as [a|], b as [b|], c as [c|]; try reflexivity.
  destruct Hk as [<-|[<-|[<-|[]]]].
  - now rewrite (Hfalsy a Ha).
  - rewrite (Hfalsy b Hb). now rewrite orb_true_r.
  - rewrite (Hfalsy c Hc). now rewrite orb_true_r.
Qed.

(** X18.  A registry file that parses to something other than an array,
    or to an array with a [null] entry, is never repaired by this route:
    every read and every unregistration is answered 500, no registration
    is answered 200, and none of them writes. *)
Theorem viewers_broken_registry clk v (fs : Files) :
  readJSON Viewers.viewersFile fs = Some v ->
  (forall items, v = JArr items -> In JNull items) ->
  (forall q, q <> "" ->
     Viewers.GET clk (Some q) fs
     = ({| status := 500; payload := JObj [("ok", JBool false)] |}, fs))
  /\ (forall d, d <> "" ->
        Viewers.DELETE clk (Some d) fs
        = ({| status := 500; payload := JObj [("ok", JBool false)] |}, fs))
  /\ (forall request,
        status (Viewers.POST clk request fs).1 <> 200
        /\ (Viewers.POST clk request fs).2 = fs).
Proof.
  intros Hread Hbad.
  assert (Hv : Viewers.readViewers fs = v) by (unfold Viewers.readViewers; now rewrite Hread).
  assert (Hthrow : forall callback, callback JNull = None ->
                                    Viewers.filterViewers callback v = None).
  { intros callback Hnull. destruct v; try reflexivity. simpl.
    apply (filterE_throws _ _ JNull); [now apply Hbad | exact Hnull]. }
  split; [|split].
  - intros q Hq. unfold Viewers.GET. destruct q as [|c q]; [congruence|].
    rewrite Hv, Hthrow; reflexivity.
  - intros d Hd. unfold Viewers.DELETE. destruct d as [|c d]; [congruence|].
    rewrite Hv, Hthrow; reflexivity.
  - intros [|body]; [split; [discriminate | reflexivity]|]. unfold Viewers.POST.
    destruct (member body "deviceId") as [[a|]|];
      destruct (member body "operatorName") as [[b|]|];
      destruct (member body "operatorId") as [[c|]|];
      try (split; [discriminate | reflexivity]).
    destruct (negb (truthy a) || negb (truthy b) || negb (truthy c));
      [split; [discriminate | reflexivity]|].
    rewrite Hv, Hthrow; [split; [discriminate | reflexivity] | reflexivity].
Qed.

End RegistryMore.

Lemma viewer_unregistered_witness :
  Viewers.readViewers
    (Viewers.DELETE (Sample.viewers_clock 2000) (Some "d1")
       Sample.registered).2
  = JArr [].
Proof.
  destruct (viewer_unregistered (host := DecimalHost.host) (Sample.viewers_clock 2000)
              "d1" Sample.registered [Sample.viewer "d1" "Mario" 2 1000])
    as (_ & H & _);
    [discriminate | reflexivity | repeat constructor; discriminate | exact H].
Defined.


Lemma viewer_registration_requires_fields_witness :
  Viewers.POST (host := DecimalHost.host) (Sample.viewers_clock 1000)
    (Parsed (Sample.viewer_body "d1" "Mario" 0)) Sample.registered
  = (Viewers.missing_fields, Sample.registered).
Proof.
  apply (viewer_registration_requires_fields (host := DecimalHost.host));
    [discriminate|].
  exists "operatorId". split; [simpl; tauto|]. intros x [= <-]. reflexivity.
Defined.

Lemma viewers_broken_registry_witness :
  Viewers.GET (host := DecimalHost.host) (Sample.viewers_clock 1000) (Some "2")
    {[ "viewers.json" := {| mtimeMs := 500; content := Parsed (JObj []) |} ]}
  = (Viewers.server_error,
     {[ "viewers.json" := {| mtimeMs := 500; content := Parsed (JObj []) |} ]}).
Proof.
  destruct (viewers_broken_registry (host := DecimalHost.host)
              (Sample.viewers_clock 1000) (JObj [])
              {[ "viewers.json" := {| mtimeMs := 500; content := Parsed (JObj []) |} ]})
    as [H _]; [reflexivity | discriminate |].
  apply H. discriminate.
Defined.

(** ** The earlier next route on the files of the send route *)

Section EarlierNext.
Context {host : Builtins}.

(** The record read from a file that holds what the send route writes. *)
Lemma stored_session_json now name (fs : Files) sd v :
  readJSON (data_path (JStr name)) fs = Some (session_json sd) ->
  lastVer sd = Some v -> isFinite v = true ->
  Forall finite_message (messages sd) ->
  stored now (JStr name) fs
  = {| session := JStr name; lastVer := Some v;
       messages := map reloaded (messages sd) |}.
Proof.
  intros Hread Hv Hfin Hms.
  assert (Hfile : exists t, fs !! data_path (JStr name)
                            = Some {| mtimeMs := t; content := Parsed (session_json sd) |}).
  { unfold readJSON in Hread.
    destruct (fs !! data_path (JStr name)) as [[t [|x]]|]; try discriminate.
    injection Hread as ->. eauto. }
  destruct Hfile as [t Hfile].
  rewrite <- (stored_same_file now (JStr name) fs
                (writeJSON (data_path (JStr name)) t (session_json sd) fs)).
  - unfold stored. now rewrite (parseSessionData_written now (JStr name) t sd v fs Hv Hfin Hms).
  - unfold writeJSON. now rewrite lookup_insert_eq, Hfile.
Qed.


(** The earlier route on such a file with a message in it. *)
Lemma NextLegacy_GET_written clk name (fs : Files) sd m rest :
  name <> "" ->
  readJSON (data_path (JStr name)) fs = Some (session_json sd) ->
  session sd = JStr name ->
  messages sd = m :: rest ->
  NextLegacy.GET clk (Some name) fs
  = (Next.delivered_reply (msg_id m) (NextLegacy.t_reply clk),
     writeJSON (data_path (JStr name)) (NextLegacy.t_save clk)
               (session_json (shift sd)) fs).
Proof.
  intros Hname Hread Hs Hms. destruct name as [|c name]; [congruence|].
  destruct sd as [s lv ms]. simpl in Hs, Hms. subst s ms.
  unfold NextLegacy.GET, NextLegacy.loadSessionData. rewrite Hread.
  destruct lv as [v|]; reflexivity.
Qed.


(** X20.  While nothing in the queue has expired, the two revisions of the
    next route do the same on a file written by the send route: the same
    reply and the same directory afterwards, when their clocks agree. *)
Theorem next_revisions_agree_on_live_queue clk clkL name (fs : Files) sd v :
  name <> "" ->
  readJSON (data_path (JStr name)) fs = Some (session_json sd) ->
  session sd = JStr name ->
  lastVer sd = Some v -> isFinite v = true ->
  Forall finite_message (messages sd) ->
  map reloaded (messages sd) = messages sd ->
  (forall m, In m (messages sd) -> live (Next.t_purge clk) m = true) ->
  Next.t_save clk = NextLegacy.t_save clkL ->
  Next.t_reply clk = NextLegacy.t_reply clkL ->
  Next.GET clk (Some name) fs = NextLegacy.GET clkL (Some name) fs.
Proof.
  intros Hname Hread Hs Hv Hfin Hall Hids Hlive Hsave Hreply.
  assert (Hst : stored (Next.t_parse clk) (JStr name) fs = sd).
  { rewrite (stored_session_json _ name fs sd v Hread Hv Hfin Hall), Hids.
    destruct sd as [s lv ms]. simpl in *. now subst. }
  assert (Hload : Next.loadSessionData clk (JStr name) fs = (sd, fs)).
  { rewrite Next_loadSessionData_stored, Hst. unfold purgeExpiredMessages.
    rewrite (filter_all _ _ Hlive), Nat.eqb_refl. simpl.
    destruct sd as [s lv ms]. reflexivity. }
  rewrite (Next_GET_cases clk name fs Hname), Hload.
  destruct (messages sd) as [|m rest] eqn:Hms.
  - destruct name as [|c name]; [congruence|].
    unfold NextLegacy.GET, NextLegacy.loadSessionData. rewrite Hread, <- Hreply.
    destruct sd as [s lv ms]. simpl in Hms, Hv. subst ms lv. reflexivity.
  - rewrite (NextLegacy_GET_written clkL name fs sd m rest Hname Hread Hs Hms).
    rewrite Hsave, Hreply. do 3 f_equal.
    unfold ensureLastVersion, shift. simpl. now rewrite Hv.
Qed.

End EarlierNext.


Lemma next_revisions_agree_on_live_queue_witness :
  Next.GET (host := DecimalHost.host) (Sample.next_clock 4000)
    (Some "operator-1") Sample.queued
  = NextLegacy.GET (host := DecimalHost.host)
      (Sample.legacy_next_clock 4000)
      (Some "operator-1") Sample.queued.
Proof.
  apply (next_revisions_agree_on_live_queue (host := DecimalHost.host)
           (Sample.next_clock 4000)
           (Sample.legacy_next_clock 4000)
           "operator-1" Sample.queued Sample.one_message (num_of_Z 1));
    [discriminate | reflexivity | reflexivity | reflexivity | reflexivity
    | repeat constructor; intros e [= <-]; reflexivity
    | reflexivity
    | intros m [<-|[]]; reflexivity
    | reflexivity | reflexivity].
Defined.

(** ** File names shared between sessions and routes *)

Lemma append_associative (a b c : string) : (a +:+ b) +:+ c = a +:+ (b +:+ c).
Proof.
  induction a as [|x a IH]; [reflexivity|].
  change (String x ((a +:+ b) +:+ c) = String x (a +:+ (b +:+ c))). now rewrite IH.
Qed.

Lemma session_json_active sd : member (session_json sd) "active" = Some None.
Proof. unfold session_json. now destruct (lastVer sd). Qed.

Section SharedNames.
Context {host : Builtins}.

(** X21.  All routes keep their files in one directory, named after the
    session.  The data file of a session called [x-status] is the status
    file of the session [x]: a send accepted for [x-status] leaves the gate
    of [x] closed.  The data file of the session called [viewers] is the
    registry: after a send accepted for it, reads of the registry are
    answered 500. *)
Theorem session_names_share_files clk id messageTTL (fs : Files) v t fs' :
  (forall x,
     Send.POST clk (send_request (x +:+ "-status") id messageTTL) fs
     = (Send.accepted_reply v t, fs') ->
     gate (JStr x) fs' = Some false)
  /\ (Send.POST clk (send_request "viewers" id messageTTL) fs
      = (Send.accepted_reply v t, fs') ->
      Send.t_sweep clk - Send.t_save clk <= Send.maxAge ->
      forall clk' q, q <> "" ->
        Viewers.GET clk' (Some q) fs'
        = ({| status := 500; payload := JObj [("ok", JBool false)] |}, fs')).
Proof.
  split.
  - intros x Hpost.
    destruct (send_request_fields (x +:+ "-status") id messageTTL)
      as (body & Hb & Hs & _).
    rewrite Hb in Hpost.
    destruct (Send_POST_accepted clk body fs v t fs' Hpost)
      as (s & i & raw & Hs' & _ & _ & _ & _ & _ & _ & _ & ->).
    assert (s = JStr (x +:+ "-status")) as -> by congruence.
    assert (Hpath : data_path (JStr (x +:+ "-status")) = status_path (JStr x)).
    { unfold data_path, status_path. simpl. apply append_associative. }
    unfold gate, readJSON. rewrite cleanupOldFiles_lookup, Hpath.
    unfold writeJSON. rewrite lookup_insert_eq.
    destruct (Send.swept _ _ _); [reflexivity|].
    now rewrite session_json_active.
  - intros Hpost Hprompt clk' q Hq.
    destruct (send_request_fields "viewers" id messageTTL) as (body & Hb & Hs & _).
    rewrite Hb in Hpost.
    destruct (Send_POST_accepted clk body fs v t fs' Hpost)
      as (s & i & raw & Hs' & _ & _ & _ & _ & _ & _ & _ & ->).
    assert (s = JStr "viewers") as -> by congruence.
    unfold Viewers.GET. destruct q as [|c q]; [congruence|].
    unfold Viewers.readViewers, readJSON.
    replace Viewers.viewersFile with (data_path (JStr "viewers")) by reflexivity.
    rewrite cleanupOldFiles_recent with (f := {| mtimeMs := Send.t_save clk;
      content := Parsed (session_json
                           (Send.enqueue (Send.loadSessionData clk (JStr "viewers") fs).1
                              i v (Send.sanitizeTTL raw) (Send.t_push clk))) |});
      [reflexivity | apply lookup_insert_eq | exact Hprompt].
Qed.

End SharedNames.

Lemma session_names_share_files_witness :
  gate (host := DecimalHost.host) (JStr "operator-1")
    (Send.POST (host := DecimalHost.host) (Sample.send_clock 2000)
       (send_request "operator-1-status" (JStr "X") None)
       (<["operator-1-status-status.json" :=
            Sample.status_file "operator-1-status" true 1000]> Sample.activated)).2
  = Some false.
Proof.
  apply (proj1 (session_names_share_files (host := DecimalHost.host)
                  (Sample.send_clock 2000) (JStr "X") None
                  (<["operator-1-status-status.json" :=
                       Sample.status_file "operator-1-status" true 1000]> Sample.activated)
                  (num_of_Z 1) 2003 _) "operator-1").
  reflexivity.
Defined.

(** ** The earlier send route *)

Section EarlierSend.
Context {host : Builtins}.

Lemma SendLegacy_POST_valid clk name id (fs : Files) :
  name <> "" -> truthy id = true ->
  SendLegacy.POST clk (send_request name id None) fs
  = match gate (JStr name) fs with
    | None => (SendLegacy.server_error, fs)
    | Some false => (SendLegacy.not_active, fs)
    | Some true =>
        match assoc "messages" (SendLegacy.loadSessionData (JStr name) fs) with
        | Some (JArr items) =>
            match SendLegacy.findExistingMessage items id with
            | None => (SendLegacy.server_error, fs)
            | Some (Some existingVer) =>
                (SendLegacy.reply 200
                   [("ok", Some (JBool true)); ("ver", existingVer);
                    ("time", Some (JNum (inject_Z (SendLegacy.t_reply clk))));
                    ("duplicate", Some (JBool true))], fs)
            | Some None =>
                (Send.accepted_reply (num_of_Z (Z.of_nat (length items) + 1))
                                     (SendLegacy.t_reply clk),
                 SendLegacy.cleanupOldFiles (SendLegacy.t_sweep clk)
                   (SendLegacy.saveSessionData (SendLegacy.t_save clk)
                      (NextLegacy.set_field "messages"
                         (JArr (items ++ [SendLegacy.new_message id
                                            (Z.of_nat (length items) + 1)
                                            (SendLegacy.t_push clk)]))
                         (SendLegacy.loadSessionData (JStr name) fs)) fs))
            end
        | _ => (SendLegacy.server_error, fs)
        end
    end.
Proof.
  intros Hname Ti. unfold SendLegacy.POST, send_request.
  cbn [app member assoc String.eqb Ascii.eqb Bool.eqb].
  rewrite (truthy_text name Hname), Ti. cbn [negb orb].
  unfold gate, SendLegacy.loadSessionStatus.
  destruct (readJSON (status_path (JStr name)) fs) as [parsed|]; [|reflexivity].
  destruct (member parsed "active") as [a|]; [|reflexivity]. cbn [fmap option_fmap option_map].
  destruct (truthy_val a); reflexivity.
Qed.

Lemma SendLegacy_sweep_lookup now (fs : Files) p f :
  fs !! p = Some f -> now - mtimeMs f <= SendLegacy.maxAge ->
  SendLegacy.cleanupOldFiles now fs !! p = Some f.
Proof. apply cleanupOldFiles_recent. Qed.

Lemma SendLegacy_load_written name items t (fs fs' : Files) :
  fs' !! data_path (JStr name)
  = Some {| mtimeMs := t; content := Parsed (legacy_file name items) |} ->
  SendLegacy.loadSessionData (JStr name) fs'
  = [("session", JStr name); ("messages", JArr items)].
Proof.
  intros H. unfold SendLegacy.loadSessionData, readJSON. rewrite H. reflexivity.
Qed.

Lemma SendLegacy_load_fresh name (fs : Files) :
  readJSON (data_path (JStr name)) fs = None ->
  SendLegacy.loadSessionData (JStr name) fs
  = [("session", JStr name); ("messages", JArr [])].
Proof. intros H. unfold SendLegacy.loadSessionData. now rewrite H. Qed.

(** An accepted send of the earlier revision, on a record of the
    session with [items] in its queue. *)
Lemma SendLegacy_accepted clk name id items (fs : Files) f :
  name <> "" -> truthy id = true ->
  gate (JStr name) fs = Some true ->
  fs !! status_path (JStr name) = Some f ->
  SendLegacy.t_sweep clk - mtimeMs f <= SendLegacy.maxAge ->
  SendLegacy.t_sweep clk - SendLegacy.t_save clk <= SendLegacy.maxAge ->
  SendLegacy.loadSessionData (JStr name) fs
  = [("session", JStr name); ("messages", JArr items)] ->
  SendLegacy.findExistingMessage items id = Some None ->
  let sent := SendLegacy.POST clk (send_request name id None) fs in
  sent.1 = Send.accepted_reply (num_of_Z (Z.of_nat (length items) + 1))
                               (SendLegacy.t_reply clk)
  /\ sent.2 !! data_path (JStr name)
     = Some {| mtimeMs := SendLegacy.t_save clk;
               content := Parsed (legacy_file name
                                    (items ++ [SendLegacy.new_message id
                                                 (Z.of_nat (length items) + 1)
                                                 (SendLegacy.t_push clk)])) |}
  /\ sent.2 !! status_path (JStr name) = Some f
  /\ gate (JStr name) sent.2 = Some true.
Proof.
  intros Hname Ti Hg Hf Hage Hprompt Hload Hfind sent. subst sent.
  rewrite (SendLegacy_POST_valid clk name id fs Hname Ti), Hg, Hload.
  cbn [assoc String.eqb Ascii.eqb Bool.eqb]. rewrite Hfind. cbn [fst snd].
  assert (Hstatus : SendLegacy.cleanupOldFiles (SendLegacy.t_sweep clk)
    (SendLegacy.saveSessionData (SendLegacy.t_save clk)
       (NextLegacy.set_field "messages"
          (JArr (items ++ [SendLegacy.new_message id (Z.of_nat (length items) + 1)
                             (SendLegacy.t_push clk)]))
          [("session", JStr name); ("messages", JArr items)]) fs)
    !! status_path (JStr name) = Some f).
  { apply SendLegacy_sweep_lookup; [|exact Hage].
    unfold SendLegacy.saveSessionData, writeJSON. rewrite lookup_insert_ne; [exact Hf|].
    apply (data_status_paths (JStr name)). }
  split; [reflexivity|]. split; [|split].
  - apply SendLegacy_sweep_lookup; [|exact Hprompt].
    unfold SendLegacy.saveSessionData, writeJSON. apply lookup_insert_eq.
  - exact Hstatus.
  - rewrite <- Hg. now apply gate_same_file; rewrite Hstatus.
Qed.




(** X23.  In the earlier send route a queued [id] is a duplicate for as
    long as it stays in the queue: sent again at any later time, it is
    answered with the version it has and [duplicate:true], and nothing is
    written. *)
Theorem legacy_duplicate_has_no_expiry clk1 clk2 name a (fs : Files) f :
  name <> "" -> truthy a = true -> strict_eq a a = true ->
  gate (JStr name) fs = Some true ->
  fs !! status_path (JStr name) = Some f ->
  SendLegacy.t_sweep clk1 - mtimeMs f <= SendLegacy.maxAge ->
  SendLegacy.t_sweep clk1 - SendLegacy.t_save clk1 <= SendLegacy.maxAge ->
  readJSON (data_path (JStr name)) fs = None ->
  let first := SendLegacy.POST clk1 (send_request name a None) fs in
  SendLegacy.POST clk2 (send_request name a None) first.2
  = ({| status := 200;
        payload := JObj [("ok", JBool true); ("ver", JNum 1);
                         ("time", JNum (inject_Z (SendLegacy.t_reply clk2)));
                         ("duplicate", JBool true)] |}, first.2).
Proof.
  intros Hname Ta Heq Hg Hf Hage Hprompt Hnone first.
  destruct (SendLegacy_accepted clk1 name a [] fs f Hname Ta Hg Hf Hage Hprompt
              (SendLegacy_load_fresh name fs Hnone) eq_refl)
    as (_ & Hdata & _ & Hg1).
  fold first in Hdata, Hg1. simpl in Hdata.
  rewrite (SendLegacy_POST_valid clk2 name a first.2 Hname Ta), Hg1.
  rewrite (SendLegacy_load_written name _ _ fs first.2 Hdata).
  cbn [assoc String.eqb Ascii.eqb Bool.eqb].
  unfold SendLegacy.findExistingMessage, SendLegacy.new_message. simpl.
  rewrite Heq. reflexivity.
Qed.

End EarlierSend.


Lemma legacy_duplicate_has_no_expiry_witness :
  let first := SendLegacy.POST (host := DecimalHost.host) (Sample.legacy_send_clock 2000)
                 (send_request "operator-1" (JStr "A") None) Sample.activated in
  (SendLegacy.POST (host := DecimalHost.host) (Sample.legacy_send_clock Sample.next_day)
     (send_request "operator-1" (JStr "A") None) first.2).1
  = Send.duplicate_reply (num_of_Z 1) (Sample.next_day + 3).
Proof.
  cbv zeta.
  rewrite (legacy_duplicate_has_no_expiry (host := DecimalHost.host)
             (Sample.legacy_send_clock 2000) (Sample.legacy_send_clock Sample.next_day)
             "operator-1" (JStr "A") Sample.activated
             (Sample.status_file "operator-1" true 1000));
    [reflexivity | discriminate | reflexivity | reflexivity | reflexivity | reflexivity
    | simpl; unfold SendLegacy.maxAge; lia | simpl; unfold SendLegacy.maxAge; lia
    | reflexivity].
Defined.
